(** * Ariadne connection layer: status record, socket correlation, polling client

    A shallow embedding of [graia/ariadne/connection/connection.py]:
    the [ConnectionStatus] record and its [update] transition, the frame and
    close handlers and the [call] coroutine of [WebsocketConnectionMixin], the
    fallback delegation of [ConnectionMixin.call], and the handshake, per-call
    API and run loop of [HttpClientConnection].

    Python values that travel through the code (decoded JSON frames, session
    keys, call parameters) are values of [json]; a Python [dict] is the list of
    its items in insertion order.  Coroutines are state transformers that end
    in a returned value, a raised exception, or a suspension at an [await]
    which the environment has not completed. *)

From Stdlib Require Import ZArith Ascii String DecimalString.
From stdpp Require Import gmap strings list fin_maps.

Set Warnings "-register-all".

Open Scope string_scope.

(** ** Python values *)

Inductive json : Type :=
| JNull
| JBool (b : bool)
| JNum (n : Z)
| JStr (s : string)
| JList (l : list json)
| JDict (d : list (string * json)).

(** A [dict] with string keys: its items, in insertion order. *)
Abbreviation dict := (list (string * json)).

(** [bool(v)] *)
Definition truthy (v : json) : bool :=
  match v with
  | JNull => false
  | JBool b => b
  | JNum n => negb (n =? 0)%Z
  | JStr s => negb (String.eqb s "")
  | JList l => match l with [] => false | _ => true end
  | JDict d => match d with [] => false | _ => true end
  end.

(** [v is not None] *)
Definition is_not_None (v : json) : bool :=
  match v with JNull => false | _ => true end.

(** [a and b]: the first operand when it is falsy, the second otherwise. *)
Definition py_and (a b : json) : json := if truthy a then b else a.

(** [d.get(k)] on the items of a dict; [None] when the key is absent. *)
Fixpoint dict_get (k : string) (d : dict) : option json :=
  match d with
  | [] => None
  | (k', v) :: d' => if String.eqb k k' then Some v else dict_get k d'
  end.

(** ** ConnectionStatus *)

Record ConnectionStatus := {
  session_key : json;
  alive : bool;
  connected : bool
}.

(** [ConnectionStatus.__init__] *)
Definition ConnectionStatus_init : ConnectionStatus :=
  {| session_key := JNull; alive := false; connected := false |}.

(** An argument whose default is the [...] sentinel. *)
Inductive sentinel (A : Type) : Type :=
| Ellipsis
| Given (a : A).
Arguments Ellipsis {A}.
Arguments Given {A} a.

(** [ConnectionStatus.update]: three conditional assignments, in source order.
    [self.frame] and [self.notify(past)] belong to the base class; they wake
    the tasks suspended on the status and leave the three fields alone. *)
Definition update (session_key_arg : sentinel json)
    (connected_arg alive_arg : option bool)
    (self : ConnectionStatus) : ConnectionStatus :=
  let self :=
    match session_key_arg with
    | Given k => {| session_key := k; alive := alive self;
                    connected := is_not_None k |}
    | Ellipsis => self
    end in
  let self :=
    match connected_arg with
    | Some c => {| session_key := session_key self; alive := alive self;
                   connected := c |}
    | None => self
    end in
  match alive_arg with
  | Some a => {| session_key := session_key self; alive := a;
                 connected := connected self |}
  | None => self
  end.

(** [ConnectionStatus.available]:
    [bool(self.connected and self.session_key and self.alive)] *)
Definition available (self : ConnectionStatus) : bool :=
  truthy (py_and (py_and (JBool (connected self)) (session_key self))
                 (JBool (alive self))).

(** The arguments of one [update] call. *)
Record UpdateArgs := {
  arg_session_key : sentinel json;
  arg_connected : option bool;
  arg_alive : option bool
}.

Definition apply_update (u : UpdateArgs) (self : ConnectionStatus)
  : ConnectionStatus :=
  update (arg_session_key u) (arg_connected u) (arg_alive u) self.

(** The status after all the calls of a sequence. *)
Definition run_updates (calls : list UpdateArgs) (self : ConnectionStatus)
  : ConnectionStatus :=
  foldl (fun st u => apply_update u st) self calls.

(** The status observed immediately after each call of a sequence. *)
Fixpoint update_trace (calls : list UpdateArgs) (self : ConnectionStatus)
  : list ConnectionStatus :=
  match calls with
  | [] => []
  | u :: rest => let self' := apply_update u self in
                 self' :: update_trace rest self'
  end.

(** ** Exceptions *)

(** The text of the two [NotImplementedError]s of the module, with the
    values interpolated into the first one kept apart. *)
Inductive message : Type :=
| CantPerform (self_repr command : string)
    (* f"Connection {self} can't perform {command!r}, consider configuring a
       HttpClientConnection?" *)
| HookHttpClient.
    (* "Please hook HttpClientConnection for multipart operation" *)

Inductive exn : Type :=
| ProtocolError (code : Z) (data : json)   (* raised by validate_response *)
| NotImplementedError (msg : message)
| KeyError (key : string)
| TypeError
| ValueError
| AssertionError
| AttributeError (name : string)
| InvalidStateError                        (* set_result on a finished future *)
| CancelledError
| OtherError (tag : nat).                  (* raised by the transport or a callback *)

(** [isinstance(e, Exception)]: a cancellation derives from [BaseException]
    only. *)
Definition is_Exception (e : exn) : bool :=
  match e with CancelledError => false | _ => true end.

(** ** Coroutines *)

(** Where a coroutine is parked. *)
Inductive suspension : Type :=
| OnUpdate                  (* status.wait_for_update() *)
| OnAvailable               (* status.wait_for_available() *)
| OnFuture (sync_id : string)   (* await fut *)
| OnReply                   (* the gateway has not answered *)
| OnSleep.                  (* asyncio.sleep *)

Inductive outcome (A : Type) : Type :=
| Return (a : A)
| Raise (e : exn)
| Suspend (at_ : suspension).
Arguments Return {A} a.
Arguments Raise {A} e.
Arguments Suspend {A} at_.

(** A coroutine over an object of type [S]. *)
Definition coro (S A : Type) : Type := S -> outcome A * S.

Definition ret {S A} (a : A) : coro S A := fun s => (Return a, s).
Definition raise {S A} (e : exn) : coro S A := fun s => (Raise e, s).
Definition suspend {S A} (p : suspension) : coro S A := fun s => (Suspend p, s).

Definition bind {S A B} (m : coro S A) (k : A -> coro S B) : coro S B :=
  fun s =>
    match m s with
    | (Return a, s') => k a s'
    | (Raise e, s') => (Raise e, s')
    | (Suspend p, s') => (Suspend p, s')
    end.

(** [try: m  except <filter> as e: handler e] - exceptions the filter rejects
    and suspensions pass through. *)
Definition try_except {S A} (m : coro S A) (catches : exn -> bool)
    (handler : exn -> coro S A) : coro S A :=
  fun s =>
    match m s with
    | (Raise e, s') => if catches e then handler e s' else (Raise e, s')
    | r => r
    end.

Definition get {S} : coro S S := fun s => (Return s, s).
Definition modify {S} (f : S -> S) : coro S unit := fun s => (Return (), f s).

(** Lifts a computation that only raises or returns. *)
Definition lift {S A} (r : exn + A) : coro S A :=
  match r with inl e => raise e | inr a => ret a end.

Declare Scope coro_scope.
Delimit Scope coro_scope with coro.
Notation "x <- m ;; k" := (bind m (fun x => k))
  (at level 100, m at next level, right associativity) : coro_scope.
Notation "m ;;; k" := (bind m (fun _ => k))
  (at level 100, right associativity) : coro_scope.

(** ** Python operators on decoded values *)

(** [p in s] for two strings: [p] occurs in [s]. *)
Fixpoint str_contains (p s : string) : bool :=
  String.prefix p s ||
  match s with
  | EmptyString => false
  | String _ s' => str_contains p s'
  end.

(** [k in v] for a string [k]: key of a dict, element of a list, substring of
    a string; [TypeError] on a value that is not a container. *)
Definition py_in (k : string) (v : json) : exn + bool :=
  match v with
  | JDict d => inr (bool_decide (is_Some (dict_get k d)))
  | JList l =>
      inr (existsb (fun x => match x with JStr s => String.eqb s k | _ => false end) l)
  | JStr s => inr (str_contains k s)
  | _ => inl TypeError
  end.

(** [v[k]] for a string [k]. *)
Definition py_getitem (v : json) (k : string) : exn + json :=
  match v with
  | JDict d => match dict_get k d with
               | Some x => inr x
               | None => inl (KeyError k)
               end
  | _ => inl TypeError
  end.

(** [params or {}] *)
Definition or_empty (params : option dict) : dict :=
  match params with Some d => d | None => [] end.

(** [s.replace("_", "/")] *)
Fixpoint replace_underscores (s : string) : string :=
  match s with
  | EmptyString => EmptyString
  | String c s' =>
      String (if Ascii.eqb c "_"%char then "/"%char else c) (replace_underscores s')
  end.

(** ** Collaborators that live outside the module *)

(** Modelled from the spec: [validate_response] of [connection/util.py] is
    not part of the sources.  "If it carries a nonzero error code, raise a
    protocol error derived from the code/message instead of treating it as
    data": a payload that is a dict with an integer [code] other than 0 raises
    [ProtocolError] with that code and the payload; every other payload is
    returned as it is. *)
Definition validate_response (data : json) : exn + json :=
  match data with
  | JDict d =>
      match dict_get "code" d with
      | Some (JNum c) => if (c =? 0)%Z then inr data else inl (ProtocolError c data)
      | _ => inr data
      end
  | _ => inr data
  end.

(** Modelled from the spec: the [CallMethod] enumeration of
    [connection/util.py], with the five members the module names. *)
Inductive CallMethod : Type := GET | POST | RESTGET | RESTPOST | MULTIPART.

(** [HttpClientConfig] of [connection/config.py]: the fields the module reads. *)
Record HttpClientConfig := {
  account : Z;
  verify_key : string;
  host : string
}.

(** What the module imports and this development leaves abstract:
    the event type and [build_event] of [connection/util.py] (it decodes a
    payload or raises), [HttpClientConfig.get_url], and the set of error codes
    whose exception class is [InvalidSession]. *)
Class Collaborators := {
  Event : Type;
  build_event : json -> exn + Event;
  get_url : HttpClientConfig -> string -> string;
  invalid_session : Z -> bool
}.

(** [isinstance(e, InvalidSession)] *)
Definition is_InvalidSession `{Collaborators} (e : exn) : bool :=
  match e with
  | ProtocolError c _ => invalid_session c
  | _ => false
  end.

(** What [loguru] is asked to write. *)
Inductive log_entry : Type :=
| LogSuccess (text : string)
| LogWarning (data : json)
| LogDebug (text : string)
| LogException (e : exn).

(** ** Event fan-out *)

Section FanOut.
Context `{Collaborators}.

(** A registered callback: called with an event, it completes or raises. *)
Definition callback : Type := Event -> option exn.

Fixpoint first_raised (results : list (option exn)) : option exn :=
  match results with
  | [] => None
  | Some e :: _ => Some e
  | None :: rest => first_raised rest
  end.

(** [asyncio.gather] over [callback(event) for callback in callbacks]: every
    callback is started on the event; the deliveries are listed by callback
    index, and the first failure, if any, is what the [await] raises. *)
Definition invoke_all (callbacks : list callback) (event : Event)
  : list (nat * Event) * option exn :=
  (imap (fun i _ => (i, event)) callbacks,
   first_raised (map (fun cb => cb event) callbacks)).
End FanOut.

(** ** HttpClientConnection *)

Module HttpClientConnection.
Section Defs.
Context `{Collaborators}.

(** The [data] argument as it reaches the HTTP client. *)
Inductive payload : Type :=
| Raw (d : dict)
| Form (fields : list (json * dict)).

(** One [http_interface.request(method, url, params=, data=, json=)]. *)
Record HttpRequest := {
  rq_method : string;
  rq_url : string;
  rq_params : option dict;
  rq_data : option payload;
  rq_json : option dict
}.

(** The connection object, together with what the gateway will answer to
    the next requests (a transport failure or a decoded body each) and what
    the connection has done so far: requests sent, events delivered to
    callbacks, log lines. *)
Record t := {
  config : HttpClientConfig;
  status : ConnectionStatus;
  event_callbacks : list callback;
  gateway : list (exn + json);
  sent : list HttpRequest;
  delivered : list (nat * Event);
  log : list log_entry
}.

Definition set_status (f : ConnectionStatus -> ConnectionStatus) (self : t) : t :=
  {| config := config self; status := f (status self);
     event_callbacks := event_callbacks self; gateway := gateway self;
     sent := sent self; delivered := delivered self; log := log self |}.

Definition add_log (entry : log_entry) (self : t) : t :=
  {| config := config self; status := status self;
     event_callbacks := event_callbacks self; gateway := gateway self;
     sent := sent self; delivered := delivered self;
     log := log self ++ [entry] |}.

Definition add_delivered (ds : list (nat * Event)) (self : t) : t :=
  {| config := config self; status := status self;
     event_callbacks := event_callbacks self; gateway := gateway self;
     sent := sent self; delivered := delivered self ++ ds; log := log self |}.

(** The keyword parameters of aiohttp's [FormData.add_field(name, value, *,
    content_type=None, filename=None, content_transfer_encoding=None)]. *)
Definition add_field_keyword (k : string) : bool :=
  String.eqb k "value" || String.eqb k "content_type" ||
  String.eqb k "filename" || String.eqb k "content_transfer_encoding".

(** An option of [add_field] as the call leaves it: not given, [None], or a
    string. *)
Definition str_or_None (v : option json) : bool :=
  match v with
  | None | Some JNull | Some (JStr _) => true
  | Some _ => false
  end.

(** [form.add_field(k, **kw)].  Binding the keywords raises [TypeError] when
    one of them is not a parameter of [add_field] ([name] is already bound
    by position) or when [value] is missing; [add_field] itself raises
    [TypeError] for a content type, file name or transfer encoding that is
    neither [None] nor a string.  Otherwise the field joins the form. *)
Definition add_field (k : json) (kw : dict) : exn + (json * dict) :=
  if forallb (fun kv : string * json => add_field_keyword kv.1) kw
     && bool_decide (is_Some (dict_get "value" kw))
     && str_or_None (dict_get "content_type" kw)
     && str_or_None (dict_get "filename" kw)
     && str_or_None (dict_get "content_transfer_encoding" kw)
  then inr (k, kw)
  else inl TypeError.

(** [k, v = x] followed by [form.add_field(k, **v)]: [x] has to unpack into
    two items, the second a mapping.  Iterating a dict yields its keys and
    iterating a string its characters, so only a two-item list whose second
    item is a dict reaches [add_field]. *)
Definition unpack_field (x : json) : exn + (json * dict) :=
  match x with
  | JList [k; JDict kw] => add_field k kw
  | JList [_; _] => inl TypeError
  | JList _ => inl ValueError
  | JStr (String _ (String _ EmptyString)) => inl TypeError
  | JStr _ => inl ValueError
  | JDict [_; _] => inl TypeError
  | JDict _ => inl ValueError
  | _ => inl TypeError
  end.

(** [for k, v in data.values(): form.add_field(k, **v)] *)
Fixpoint build_form (values : list json) : exn + list (json * dict) :=
  match values with
  | [] => inr []
  | x :: rest =>
      match unpack_field x with
      | inl e => inl e
      | inr field =>
          match build_form rest with
          | inl e => inl e
          | inr fields => inr (field :: fields)
          end
      end
  end.

(** [if data and isinstance(data, dict): ... data = form] *)
Definition prepare_data (data : option dict) : exn + option payload :=
  match data with
  | None => inr None
  | Some [] => inr (Some (Raw []))
  | Some d =>
      match build_form (map snd d) with
      | inl e => inl e
      | inr fields => inr (Some (Form fields))
      end
  end.

(** [http_interface.request(...)], [rider.io().read()], decoding and
    [Json.deserialize]: the request goes out and the gateway's next answer
    comes back. *)
Definition exchange (rq : HttpRequest) : coro t json :=
  fun self =>
    let self' :=
      {| config := config self; status := status self;
         event_callbacks := event_callbacks self;
         gateway := tail (gateway self);
         sent := sent self ++ [rq]; delivered := delivered self;
         log := log self |} in
    match gateway self with
    | [] => (Suspend OnReply, self')
    | inl e :: _ => (Raise e, self')
    | inr result :: _ => (Return result, self')
    end.

(** [HttpClientConnection.request] *)
Definition request (method url : string) (params data json_ : option dict)
  : coro t json :=
  (data' <- lift (prepare_data data) ;;
   result <- exchange {| rq_method := method; rq_url := url;
                         rq_params := params; rq_data := data';
                         rq_json := json_ |} ;;
   lift (validate_response result))%coro.

(** [self.status.update(...)] *)
Definition status_update (session_key_arg : sentinel json)
    (connected_arg alive_arg : option bool) : coro t unit :=
  modify (set_status (update session_key_arg connected_arg alive_arg)).

(** [HttpClientConnection.http_auth] *)
Definition http_auth : coro t unit :=
  (self <- get ;;
   data <- request "POST" (get_url (config self) "verify") None None
             (Some [("verifyKey", JStr (verify_key (config self)))]) ;;
   session_key <- lift (py_getitem data "session") ;;
   _ <- request "POST" (get_url (config self) "bind") None None
          (Some [("qq", JNum (account (config self)));
                 ("sessionKey", session_key)]) ;;
   status_update (Given session_key) None None)%coro.

(** [while not self.status.connected: await self.status.wait_for_update();
    logger.debug("Got update")].  [wakeups] are the updates other tasks make
    to the status while this call is parked, each of which wakes it. *)
Fixpoint wait_connected (wakeups : list UpdateArgs) (self : t)
  : outcome unit * t :=
  if connected (status self) then (Return (), self)
  else
    match wakeups with
    | [] => (Suspend OnUpdate, self)
    | u :: rest =>
        wait_connected rest
          (add_log (LogDebug "Got update") (set_status (apply_update u) self))
    end.

(** The request a call of each kind sends. *)
Definition dispatch (method : CallMethod) (command : string) (params : dict)
  : coro t json :=
  (self <- get ;;
   match method with
   | GET | RESTGET =>
       request "GET" (get_url (config self) command) (Some params) None None
   | POST | RESTPOST =>
       request "POST" (get_url (config self) command) None None (Some params)
   | MULTIPART =>
       request "POST" (get_url (config self) command) None (Some params) None
   end)%coro.

(** [HttpClientConnection.call] *)
Definition call (wakeups : list UpdateArgs) (method : CallMethod)
    (command : string) (params : option dict) : coro t json :=
  let params := or_empty params in
  let command := replace_underscores command in
  (wait_connected wakeups ;;;
   self <- get ;;
   (if truthy (session_key (status self)) then ret () else http_auth) ;;;
   try_except (dispatch method command params) is_InvalidSession
     (fun e => status_update (Given JNull) None None ;;; raise e))%coro.

(** [await asyncio.gather(...)] over [self.event_callbacks] *)
Definition gather (event : Event) : coro t unit :=
  fun self =>
    let '(deliveries, failure) := invoke_all (event_callbacks self) event in
    (match failure with Some e => Raise e | None => Return () end,
     add_delivered deliveries self).

(** [for event_data in data: event = build_event(event_data); await gather] *)
Fixpoint dispatch_all (items : list json) : coro t unit :=
  match items with
  | [] => ret ()
  | event_data :: rest =>
      (event <- lift (build_event event_data) ;;
       gather event ;;;
       dispatch_all rest)%coro
  end.

(** One pass through the body of the polling loop, after its sleep. *)
Definition poll_once : coro t unit :=
  (self <- get ;;
   data <- request "GET" (get_url (config self) "fetchMessage")
             (Some [("sessionKey", session_key (status self));
                    ("count", JNum 10)]) None None ;;
   status_update Ellipsis None (Some true) ;;;
   items <- match data with
            | JList l => ret l
            | _ => raise AssertionError
            end ;;
   dispatch_all items)%coro.

(** [while self.status.connected: await asyncio.sleep(0.5); ...].  Each
    element of [ticks] is one sleep: the updates other tasks make to the
    status while this one is asleep.  With no tick left the loop is asleep. *)
Fixpoint poll (ticks : list (list UpdateArgs)) (self : t) : outcome unit * t :=
  if connected (status self) then
    match ticks with
    | [] => (Suspend OnSleep, self)
    | others :: ticks' =>
        (modify (set_status (run_updates others)) ;;;
         poll_once ;;;
         poll ticks')%coro self
    end
  else (Return (), self).

(** [HttpClientConnection.mainline]: [try: http_auth()  except Exception as
    e: ...  else: ...]; what the [else] branch raises is not caught. *)
Definition mainline (ticks : list (list UpdateArgs)) : coro t unit :=
  fun self =>
    match http_auth self with
    | (Raise e, self') =>
        if is_Exception e then
          (status_update (Given JNull) None None ;;;
           modify (add_log (LogException e)))%coro self'
        else (Raise e, self')
    | (Return _, self') =>
        (poll ticks ;;;
         status_update Ellipsis None (Some false))%coro self'
    | (Suspend p, self') => (Suspend p, self')
    end.

(** The first request of the handshake, and the fetch of the polling loop,
    as they appear in [sent]. *)
Definition verify_request (self : t) : HttpRequest :=
  {| rq_method := "POST"; rq_url := get_url (config self) "verify";
     rq_params := None; rq_data := None;
     rq_json := Some [("verifyKey", JStr (verify_key (config self)))] |}.

Definition fetch_request (self : t) : HttpRequest :=
  {| rq_method := "GET"; rq_url := get_url (config self) "fetchMessage";
     rq_params := Some [("sessionKey", session_key (status self));
                        ("count", JNum 10)];
     rq_data := None; rq_json := None |}.

(** The connection after the fetch of a pass, with the given status and
    deliveries. *)
Definition after_fetch (s : t) (st : ConnectionStatus)
    (rest : list (exn + json)) (events : list Event) : t :=
  {| config := config s;
     status := st;
     event_callbacks := event_callbacks s;
     gateway := rest;
     sent := sent s ++ [fetch_request s];
     delivered :=
       delivered s ++
       flat_map (fun event => imap (fun i _ => (i, event))
                                (event_callbacks s)) events;
     log := log s |}.

(** A value of the [data] dict that the form takes: a two-item list of a
    name and keywords that [add_field] accepts. *)
Definition field_ok (x : json) : Prop :=
  exists k kw, x = JList [k; JDict kw] /\ add_field k kw = inr (k, kw).

(** [s'] has sent what [s] had sent, and possibly more after it. *)
Definition sent_extends (s s' : t) : Prop :=
  exists more, sent s' = (sent s ++ more)%list.

(** A coroutine that never takes back a request. *)
Definition monotone {A} (m : coro t A) : Prop :=
  forall s, sent_extends s (m s).2.
End Defs.
End HttpClientConnection.

(** ** ConnectionMixin *)

Module ConnectionMixin.
Section Defs.
Context `{Collaborators}.

(** The three classes whose instances carry the state below; the fourth,
    [HttpClientConnection], has its own module. *)
Inductive class : Type :=
| WebsocketServerConnection
| WebsocketClientConnection
| HttpServerConnection.

(** An [asyncio.Future]. *)
Inductive Future : Type :=
| Pending
| Finished (result : json)
| Cancelled.

(** A connection object.  [ws_io] is [None] while the attribute does not
    exist and otherwise holds the frames sent over the channel; [futures]
    is the pending-call dictionary, a future standing under its token;
    [delivered] and [log] record what the connection has done so far.
    The dictionary holds its futures weakly: an entry is there as long as the
    coroutine of the call that created the future is alive, and goes when
    that coroutine ends ([WebsocketConnectionMixin.release]). *)
Record t := {
  cls : class;
  status : ConnectionStatus;
  fallback : option HttpClientConnection.t;
  event_callbacks : list callback;
  ws_io : option (list dict);
  futures : gmap string Future;
  delivered : list (nat * Event);
  log : list log_entry
}.

Definition set_status (f : ConnectionStatus -> ConnectionStatus) (self : t) : t :=
  {| cls := cls self; status := f (status self); fallback := fallback self;
     event_callbacks := event_callbacks self; ws_io := ws_io self;
     futures := futures self; delivered := delivered self; log := log self |}.

Definition set_fallback (fb : option HttpClientConnection.t) (self : t) : t :=
  {| cls := cls self; status := status self; fallback := fb;
     event_callbacks := event_callbacks self; ws_io := ws_io self;
     futures := futures self; delivered := delivered self; log := log self |}.

Definition set_ws_io (io : option (list dict)) (self : t) : t :=
  {| cls := cls self; status := status self; fallback := fallback self;
     event_callbacks := event_callbacks self; ws_io := io;
     futures := futures self; delivered := delivered self; log := log self |}.

Definition set_futures (f : gmap string Future -> gmap string Future)
    (self : t) : t :=
  {| cls := cls self; status := status self; fallback := fallback self;
     event_callbacks := event_callbacks self; ws_io := ws_io self;
     futures := f (futures self); delivered := delivered self;
     log := log self |}.

Definition add_log (entry : log_entry) (self : t) : t :=
  {| cls := cls self; status := status self; fallback := fallback self;
     event_callbacks := event_callbacks self; ws_io := ws_io self;
     futures := futures self; delivered := delivered self;
     log := log self ++ [entry] |}.

Definition add_delivered (ds : list (nat * Event)) (self : t) : t :=
  {| cls := cls self; status := status self; fallback := fallback self;
     event_callbacks := event_callbacks self; ws_io := ws_io self;
     futures := futures self; delivered := delivered self ++ ds;
     log := log self |}.

Definition class_name (c : class) : string :=
  match c with
  | WebsocketServerConnection => "WebsocketServerConnection"
  | WebsocketClientConnection => "WebsocketClientConnection"
  | HttpServerConnection => "HttpServerConnection"
  end.

(** [str(b)] for a [bool] *)
Definition bool_str (b : bool) : string := if b then "True" else "False".

(** [ConnectionStatus.__repr__] *)
Definition status_repr (st : ConnectionStatus) : string :=
  "<ConnectionStatus " ++
    "connected=" ++ bool_str (connected st) ++ " " ++
    "alive=" ++ bool_str (alive st) ++ " " ++
    "verified=" ++ bool_str (is_not_None (session_key st)) ++ ">".

(** [ConnectionMixin.__repr__] *)
Definition repr (self : t) : string :=
  "<" ++ class_name (cls self) ++ " " ++ status_repr (status self) ++
    " with " ++
    NilEmpty.string_of_uint (Nat.to_uint (length (event_callbacks self))) ++
    " callbacks>".

(** [ConnectionMixin.call].  [wakeups] is handed to the fallback's call. *)
Definition call (wakeups : list UpdateArgs) (method : CallMethod)
    (command : string) (params : option dict) : coro t json :=
  fun self =>
    match fallback self with
    | Some fb =>
        let '(r, fb') :=
          HttpClientConnection.call wakeups method command params fb in
        (r, set_fallback (Some fb') self)
    | None =>
        (Raise (NotImplementedError (CantPerform (repr self) command)), self)
    end.
End Defs.
End ConnectionMixin.

(** ** WebsocketConnectionMixin *)

Module WebsocketConnectionMixin.
Import ConnectionMixin.
Section Defs.
Context `{Collaborators}.

(** [self.status.update(...)] *)
Definition status_update (session_key_arg : sentinel json)
    (connected_arg alive_arg : option bool) : coro t unit :=
  modify (set_status (update session_key_arg connected_arg alive_arg)).

(** [sync_id in self.futures]: a list or a dict cannot be hashed, and only
    strings are keys. *)
Definition futures_contains (sync_id : json) (futs : gmap string Future)
  : exn + bool :=
  match sync_id with
  | JStr s => inr (bool_decide (is_Some (futs !! s)))
  | JList _ | JDict _ => inl TypeError
  | _ => inr false
  end.

(** [self.futures[sync_id].set_result(data)], for a token that is in the
    dictionary. *)
Definition set_result (sync_id : json) (data : json) : coro t unit :=
  fun self =>
    match sync_id with
    | JStr s =>
        match futures self !! s with
        | Some Pending =>
            (Return (), set_futures (insert s (Finished data)) self)
        | Some _ => (Raise InvalidStateError, self)
        | None => (Raise (KeyError s), self)
        end
    | _ => (Raise TypeError, self)
    end.

(** [await asyncio.gather(...)] over [self.event_callbacks] *)
Definition gather (event : Event) : coro t unit :=
  fun self =>
    let '(deliveries, failure) := invoke_all (event_callbacks self) event in
    (match failure with Some e => Raise e | None => Return () end,
     add_delivered deliveries self).

(** The frame handler from [if "session" in data] on: handshake
    acknowledgement, answer to a pending call, event, or unknown data. *)
Definition handle_payload (sync_id data : json) : coro t unit :=
  (has_session <- lift (py_in "session" data) ;;
   if has_session : bool then
     key <- lift (py_getitem data "session") ;;
     status_update (Given key) None None ;;;
     modify (add_log (LogSuccess "Successfully got session key"))
   else
     self <- get ;;
     is_pending <- lift (futures_contains sync_id (futures self)) ;;
     if is_pending : bool then set_result sync_id data
     else
       has_type <- lift (py_in "type" data) ;;
       if has_type : bool then
         status_update Ellipsis None (Some true) ;;;
         event <- lift (build_event data) ;;
         gather event
       else modify (add_log (LogWarning data)))%coro.

(** The handler of [WebsocketReceivedEvent], on the decoded frame. *)
Definition on_received (raw : json) : coro t unit :=
  (d <- match raw with
        | JDict d => ret d
        | _ => raise AssertionError
        end ;;
   (if bool_decide (is_Some (dict_get "code" d))
    then _ <- lift (validate_response raw) ;; ret ()
    else ret ()) ;;;
   let sync_id := default (JStr "#") (dict_get "syncId" d) in
   let data := default JNull (dict_get "data" d) in
   data <- lift (validate_response data) ;;
   handle_payload sync_id data)%coro.

(** The handler of [WebsocketCloseEvent]: [del self.ws_io], then the update. *)
Definition on_close : coro t unit :=
  (self <- get ;;
   match ws_io self with
   | None => raise (AttributeError "ws_io")
   | Some _ =>
       modify (set_ws_io None) ;;;
       status_update (Given JNull) None (Some false)
   end)%coro.

(** Modelled from the spec: [wait_for_available] belongs to the base status
    class, which is not part of the sources.  It "suspends until
    [available] true, returns immediately if already true". *)
Definition wait_for_available : coro t unit :=
  (self <- get ;;
   if available (status self) then ret () else suspend OnAvailable)%coro.

(** [await self.ws_io.send(content)] *)
Definition send (content : dict) : coro t unit :=
  (self <- get ;;
   match ws_io self with
   | None => raise (AttributeError "ws_io")
   | Some frames => modify (set_ws_io (Some (frames ++ [content])%list))
   end)%coro.

(** [await fut], for the future standing under [sync_id]. *)
Definition await_future (sync_id : string) : coro t json :=
  (self <- get ;;
   match futures self !! sync_id with
   | Some (Finished result) => ret result
   | Some Cancelled => raise CancelledError
   | _ => suspend (OnFuture sync_id)
   end)%coro.

(** The envelope built by [call], or the error of a multipart call. *)
Definition envelope (sync_id : string) (method : CallMethod)
    (command : string) (params : dict) : exn + dict :=
  let content := [("syncId", JStr sync_id); ("command", JStr command);
                  ("content", JDict (or_empty (Some params)))] in
  match method with
  | RESTGET => inr (content ++ [("subCommand", JStr "get")])%list
  | RESTPOST => inr (content ++ [("subCommand", JStr "update")])%list
  | MULTIPART => inl (NotImplementedError HookHttpClient)
  | _ => inr content
  end.

(** What [call] does once it holds the envelope. *)
Definition transmit (sync_id : string) (content : dict) : coro t json :=
  (wait_for_available ;;;
   send content ;;;
   await_future sync_id)%coro.

(** [WebsocketConnectionMixin.call], run up to its first suspension.
    [sync_id] is the token [secrets.token_urlsafe(12)] draws. *)
Definition call (sync_id : string) (method : CallMethod) (command : string)
    (params : option dict) : coro t json :=
  let params := or_empty params in
  (content <- lift (envelope sync_id method command params) ;;
   modify (set_futures (insert sync_id Pending)) ;;;
   transmit sync_id content)%coro.

(** The coroutine of a call ends - it has returned, raised, or been
    abandoned - and with it the only strong reference to its future: the
    weak-value dictionary drops the entry under the token. *)
Definition release (sync_id : string) : coro t unit :=
  modify (set_futures (delete sync_id)).

(** [return await fut], to the end of the calling coroutine: what the caller
    receives, and the dictionary once the coroutine is gone. *)
Definition call_returns (sync_id : string) : coro t json :=
  fun self =>
    match await_future sync_id self with
    | (Suspend p, self') => (Suspend p, self')
    | (r, self') => (r, (release sync_id self').2)
    end.
End Defs.
End WebsocketConnectionMixin.

(** ** Which [call] a connection object runs *)

Section Resolution.
Context `{Collaborators}.
Import ConnectionMixin.

(** Method resolution: the two socket classes list
    [WebsocketConnectionMixin] before [ConnectionMixin];
    [HttpServerConnection] inherits [ConnectionMixin.call]. *)
Definition resolved_call (sync_id : string) (wakeups : list UpdateArgs)
    (method : CallMethod) (command : string) (params : option dict)
  : coro t json :=
  fun self =>
    match cls self with
    | WebsocketServerConnection | WebsocketClientConnection =>
        WebsocketConnectionMixin.call sync_id method command params self
    | HttpServerConnection =>
        ConnectionMixin.call wakeups method command params self
    end.

(** Whether a class handles a call kind in its own [call]. *)
Definition native (c : class) (method : CallMethod) : bool :=
  match c, method with
  | HttpServerConnection, _ => false
  | _, MULTIPART => false
  | _, _ => true
  end.
End Resolution.

(** ** Inbound connections *)

(** The HTTP request that opens an inbound connection, as the handlers read
    it: its headers and its query parameters. *)
Record InboundRequest := {
  rq_headers : list (string * string);
  rq_query_params : list (string * string)
}.

(** [d.get(k)] on a dict from strings to strings. *)
Fixpoint str_get (k : string) (d : list (string * string)) : option string :=
  match d with
  | [] => None
  | (k', v) :: d' => if String.eqb k k' then Some v else str_get k d'
  end.

(** [for k, v in required: if given.get(k) != v: return ...]: whether the
    loop runs to its end. *)
Fixpoint all_match (required given : list (string * string)) : bool :=
  match required with
  | [] => true
  | (k, v) :: rest =>
      if bool_decide (str_get k given = Some v) then all_match rest given
      else false
  end.

(** A request carries every required pair with its expected value. *)
Definition satisfies (required given : list (string * string)) : Prop :=
  Forall (fun kv : string * string => str_get kv.1 given = Some kv.2) required.

(** [str(n)] for an [int] *)
Definition py_str_int (n : Z) : string := NilEmpty.string_of_int (Z.to_int n).

Module WebsocketServer.
Section Defs.
Context `{Collaborators}.
Import ConnectionMixin.

(** Modelled from the spec: [WebsocketServerConfig] of [connection/config.py]
    is not part of the sources.  It carries the account, the verification
    secret, the listen path and the "required header key/value pairs" and
    "required query-parameter key/value pairs", which the handler iterates as
    pairs. *)
Record config := {
  account : Z;
  verify_key : string;
  path : string;
  headers : list (string * string);
  params : list (string * string)
}.

(** What the handler asks of the channel: [io.extra(WSConnectionAccept)] or
    [io.extra(WSConnectionClose)]. *)
Inductive verdict : Type := WSConnectionAccept | WSConnectionClose.

(** The handshake request the server sends once it has accepted. *)
Definition verify_frame (cfg : config) : dict :=
  [("syncId", JStr "#"); ("command", JStr "verify");
   ("content", JDict [("verifyKey", JStr (verify_key cfg));
                      ("sessionKey", JNull);
                      ("qq", JNum (account cfg))])].

(** The handler of [WebsocketConnectEvent] of [WebsocketServerConnection].
    The channel it retains holds the one frame sent over it; the [info] line
    goes to a log level that the connection's [log] does not keep. *)
Definition on_connect (cfg : config) (req : InboundRequest)
  : coro t verdict :=
  if negb (all_match (headers cfg) (rq_headers req)) then
    ret WSConnectionClose
  else if negb (all_match (params cfg) (rq_query_params req)) then
    ret WSConnectionClose
  else
    (modify (set_ws_io (Some [verify_frame cfg])) ;;;
     ret WSConnectionAccept)%coro.
End Defs.
End WebsocketServer.

Module WebsocketClient.
Section Defs.
Context `{Collaborators}.
Import ConnectionMixin.

(** The handler of [WebsocketConnectEvent] of [WebsocketClientConnection]:
    [self.ws_io = io], for a channel over which nothing has been sent. *)
Definition on_connect : coro t unit := modify (set_ws_io (Some [])).
End Defs.
End WebsocketClient.

Module HttpServer.
Section Defs.
Context `{Collaborators}.
Import ConnectionMixin.

(** Modelled from the spec: [HttpServerConfig] of [connection/config.py] is
    not part of the sources.  It carries the account, the listen path and the
    "required header key/value pairs", which the handler iterates as pairs. *)
Record config := {
  account : Z;
  path : string;
  headers : list (string * string)
}.

(** What [handle_request] returns: nothing, the pair
    [("Authorization failed", {"status": 401})], or the empty acknowledgement
    [{"command": "", "data": {}}]. *)
Inductive response : Type :=
| NoResponse
| Unauthorized
| Acknowledged.

(** [self.status.update(...)] *)
Definition status_update (session_key_arg : sentinel json)
    (connected_arg alive_arg : option bool) : coro t unit :=
  modify (set_status (update session_key_arg connected_arg alive_arg)).

(** [await asyncio.gather(...)] over [self.event_callbacks] *)
Definition gather (event : Event) : coro t unit :=
  fun self =>
    let '(deliveries, failure) := invoke_all (event_callbacks self) event in
    (match failure with Some e => Raise e | None => Return () end,
     add_delivered deliveries self).

(** [HttpServerConnection.handle_request].  [body] is what reading the
    request body and decoding it as JSON gives: the value, or the exception
    either step raises. *)
Definition handle_request (cfg : config) (req : InboundRequest)
    (body : exn + json) : coro t response :=
  if negb (bool_decide (str_get "qq" (rq_headers req)
                          = Some (py_str_int (account cfg)))) then
    ret NoResponse
  else if negb (all_match (headers cfg) (rq_headers req)) then
    ret Unauthorized
  else
    (data <- lift body ;;
     match data with
     | JDict _ => ret ()
     | _ => raise AssertionError
     end ;;;
     status_update Ellipsis (Some true) (Some true) ;;;
     event <- lift (build_event data) ;;
     gather event ;;;
     ret Acknowledged)%coro.
End Defs.
End HttpServer.

(** ** Error codes of a frame *)

(** The nonzero integer [code] a payload carries, if it carries one. *)
Definition error_code (v : json) : option Z :=
  match v with
  | JDict d =>
      match dict_get "code" d with
      | Some (JNum c) => if (c =? 0)%Z then None else Some c
      | _ => None
      end
  | _ => None
  end.

(** The protocol error of a frame: the one of the frame itself, else the one
    of its [data]. *)
Definition frame_error (d : dict) : option exn :=
  match error_code (JDict d) with
  | Some c => Some (ProtocolError c (JDict d))
  | None =>
      let data := default JNull (dict_get "data" d) in
      match error_code data with
      | Some c => Some (ProtocolError c data)
      | None => None
      end
  end.

(** ** Concrete collaborators and objects for the worked examples *)

(** Events are their payloads, every payload decodes, URLs are the host
    followed by the command, and code 3 is the invalid-session code. *)
Definition sample_collaborators : Collaborators :=
  {| Event := json;
     build_event := fun data => inr data;
     get_url := fun cfg command => host cfg ++ "/" ++ command;
     invalid_session := fun c => (c =? 3)%Z |}.

Definition sample_config : HttpClientConfig :=
  {| account := 10001; verify_key := "secret"; host := "http://gateway" |}.

Definition args (k : sentinel json) (c a : option bool) : UpdateArgs :=
  {| arg_session_key := k; arg_connected := c; arg_alive := a |}.

(** A client socket that has completed its handshake with key ["S"], has an
    open channel and one call pending under token ["t"]. *)
Definition sample_socket : @ConnectionMixin.t sample_collaborators :=
  {| ConnectionMixin.cls := ConnectionMixin.WebsocketClientConnection;
     ConnectionMixin.status :=
       {| session_key := JStr "S"; alive := true; connected := true |};
     ConnectionMixin.fallback := None;
     ConnectionMixin.event_callbacks := [fun _ => None];
     ConnectionMixin.ws_io := Some [];
     ConnectionMixin.futures := {[ "t" := ConnectionMixin.Pending ]};
     ConnectionMixin.delivered := [];
     ConnectionMixin.log := [] |}.

(** A polling connection with two callbacks that never fail, in a given
    status and facing a gateway that will give the listed answers. *)
Definition sample_client (st : ConnectionStatus) (answers : list (exn + json))
  : @HttpClientConnection.t sample_collaborators :=
  {| HttpClientConnection.config := sample_config;
     HttpClientConnection.status := st;
     HttpClientConnection.event_callbacks := [fun _ => None; fun _ => None];
     HttpClientConnection.gateway := answers;
     HttpClientConnection.sent := [];
     HttpClientConnection.delivered := [];
     HttpClientConnection.log := [] |}.

(** The status after a handshake that obtained ["K1"] and one fetch. *)
Definition status_K1 : ConnectionStatus :=
  {| session_key := JStr "K1"; alive := true; connected := true |}.

(** Answers of the gateway: a rejection of the session, the two answers of a
    handshake that hands out a key, and an empty success. *)
Definition invalid_session_answer : json :=
  JDict [("code", JNum 3); ("msg", JStr "Session invalid")].

Definition verify_answer (key : string) : json :=
  JDict [("code", JNum 0); ("session", JStr key)].

Definition ok_answer : json :=
  JDict [("code", JNum 0); ("msg", JStr "success")].

(** An inbound-HTTP connection, with or without a fallback. *)
Definition sample_http_server
    (fb : option (@HttpClientConnection.t sample_collaborators))
  : @ConnectionMixin.t sample_collaborators :=
  {| ConnectionMixin.cls := ConnectionMixin.HttpServerConnection;
     ConnectionMixin.status := ConnectionStatus_init;
     ConnectionMixin.fallback := fb;
     ConnectionMixin.event_callbacks := [];
     ConnectionMixin.ws_io := None;
     ConnectionMixin.futures := ∅;
     ConnectionMixin.delivered := [];
     ConnectionMixin.log := [] |}.

(** Frames: an error frame for token ["t"], an answer to the call pending
    under ["t"], and a handshake acknowledgement. *)
Definition error_frame : dict :=
  [("syncId", JStr "t"); ("code", JNum 5); ("msg", JStr "target not found")].

Definition answer_frame : dict :=
  [("syncId", JStr "t"); ("data", JDict [("messageId", JNum 42)])].

Definition session_frame : dict :=
  [("syncId", JStr ""); ("data", JDict [("code", JNum 0); ("session", JStr "S2")])].

(** A polling connection holding key ["K1"] whose next request the gateway
    rejects as an invalid session; after that the gateway would serve a new
    handshake with key ["K2"] and accept a request. *)
Definition rejected_client : @HttpClientConnection.t sample_collaborators :=
  sample_client status_K1
    [inr invalid_session_answer; inr (verify_answer "K2"); inr ok_answer;
     inr ok_answer].

(** A polling connection before its handshake, facing a gateway that hands
    out ["K1"], then answers one fetch with two events and a second fetch
    with none. *)
Definition fresh_client : @HttpClientConnection.t sample_collaborators :=
  sample_client ConnectionStatus_init
    [inr (verify_answer "K1"); inr ok_answer;
     inr (JList [JDict [("type", JStr "FriendMessage")];
                 JDict [("type", JStr "GroupMessage")]]);
     inr (JList [])].

(** The same connection facing a gateway that refuses the verification key. *)
Definition refused_client : @HttpClientConnection.t sample_collaborators :=
  sample_client ConnectionStatus_init
    [inr (JDict [("code", JNum 1); ("msg", JStr "wrong verify key")])].

(** A fallback that is connected, holds a key and will get an answer. *)
Definition ready_fallback : @HttpClientConnection.t sample_collaborators :=
  sample_client status_K1 [inr ok_answer].

(** Collaborators whose [build_event] refuses a payload without a [type]. *)
Definition typed_collaborators : Collaborators :=
  {| Event := json;
     build_event := fun data =>
       match py_in "type" data with
       | inr true => inr data
       | _ => inl ValueError
       end;
     get_url := fun cfg command => host cfg ++ "/" ++ command;
     invalid_session := fun c => (c =? 3)%Z |}.

(** A polling connection, over those collaborators, whose second callback
    fails on every event. *)
Definition flaky_client : @HttpClientConnection.t typed_collaborators :=
  {| HttpClientConnection.config := sample_config;
     HttpClientConnection.status := status_K1;
     HttpClientConnection.event_callbacks :=
       [fun _ => None; fun _ => Some (OtherError 7)];
     HttpClientConnection.gateway := [];
     HttpClientConnection.sent := [];
     HttpClientConnection.delivered := [];
     HttpClientConnection.log := [] |}.

(** The same connection with callbacks that never fail. *)
Definition steady_client : @HttpClientConnection.t typed_collaborators :=
  {| HttpClientConnection.config := sample_config;
     HttpClientConnection.status := status_K1;
     HttpClientConnection.event_callbacks := [fun _ => None];
     HttpClientConnection.gateway := [];
     HttpClientConnection.sent := [];
     HttpClientConnection.delivered := [];
     HttpClientConnection.log := [] |}.

(** A client socket whose channel has just opened: no key, nothing pending. *)
Definition opened_socket : @ConnectionMixin.t sample_collaborators :=
  {| ConnectionMixin.cls := ConnectionMixin.WebsocketClientConnection;
     ConnectionMixin.status := ConnectionStatus_init;
     ConnectionMixin.fallback := None;
     ConnectionMixin.event_callbacks := [fun _ => None];
     ConnectionMixin.ws_io := Some [];
     ConnectionMixin.futures := ∅;
     ConnectionMixin.delivered := [];
     ConnectionMixin.log := [] |}.


(** The event the sample collaborators decode from that frame. *)
Definition friend_message : @Event sample_collaborators :=
  JDict [("type", JStr "FriendMessage")].

Definition unknown_frame : dict :=
  [("syncId", JStr "-1"); ("data", JDict [("foo", JNum 1)])].

Definition answer_frame_u : dict :=
  [("syncId", JStr "u"); ("data", JDict [("messageId", JNum 7)])].

(** Inbound configurations and requests. *)
Definition socket_server_config
  : @WebsocketServer.config :=
  {| WebsocketServer.account := 10001;
     WebsocketServer.verify_key := "secret";
     WebsocketServer.path := "/";
     WebsocketServer.headers := [("Authorization", "token")];
     WebsocketServer.params := [("verifyKey", "secret")] |}.

Definition http_server_config : @HttpServer.config :=
  {| HttpServer.account := 10001;
     HttpServer.path := "/";
     HttpServer.headers := [("Authorization", "token")] |}.

Definition good_request : InboundRequest :=
  {| rq_headers := [("qq", "10001"); ("Authorization", "token")];
     rq_query_params := [("verifyKey", "secret")] |}.

Definition wrong_param_request : InboundRequest :=
  {| rq_headers := [("qq", "10001"); ("Authorization", "token")];
     rq_query_params := [("verifyKey", "guess")] |}.

Definition other_account_request : InboundRequest :=
  {| rq_headers := [("qq", "20002"); ("Authorization", "token")];
     rq_query_params := [] |}.

Definition no_token_request : InboundRequest :=
  {| rq_headers := [("qq", "10001")]; rq_query_params := [] |}.

(** A polling connection holding ["K1"] whose next request the gateway
    refuses with a code that is not the invalid-session one. *)
Definition refused_call_client : @HttpClientConnection.t sample_collaborators :=
  sample_client status_K1
    [inr (JDict [("code", JNum 5); ("msg", JStr "target not found")])].

(** A polling connection whose handshake succeeds and whose first fetch is
    rejected as an invalid session. *)
Definition expiring_client : @HttpClientConnection.t sample_collaborators :=
  sample_client ConnectionStatus_init
    [inr (verify_answer "K1"); inr ok_answer; inr invalid_session_answer].

(** The body of a pushed event, and an inbound-HTTP connection with one
    more callback, which never fails. *)
Definition event_frame_body : json := JDict [("type", JStr "FriendMessage")].


(** A polling connection before its handshake whose second callback fails
    on every event, facing a gateway that hands out ["K1"], answers the first
    fetch with two events and would answer a second fetch with none. *)
Definition flaky_fresh_client : @HttpClientConnection.t sample_collaborators :=
  {| HttpClientConnection.config := sample_config;
     HttpClientConnection.status := ConnectionStatus_init;
     HttpClientConnection.event_callbacks :=
       [fun _ => None; fun _ => Some (OtherError 7)];
     HttpClientConnection.gateway :=
       [inr (verify_answer "K1"); inr ok_answer;
        inr (JList [JDict [("type", JStr "FriendMessage")];
                    JDict [("type", JStr "GroupMessage")]]);
        inr (JList [])];
     HttpClientConnection.sent := [];
     HttpClientConnection.delivered := [];
     HttpClientConnection.log := [] |}.

(** * Properties *)

(** ** ConnectionStatus *)

Section StatusFacts.

Lemma available_unfold (st : ConnectionStatus) :
  available st = connected st && alive st && truthy (session_key st).
Proof.
  unfold available, py_and.
  destruct st as [k a c]; simpl.
  destruct c, a, (truthy k) eqn:Hk; simpl; rewrite ?Hk; reflexivity.
Qed.

Lemma update_trace_Forall (P : ConnectionStatus -> Prop) :
  (forall st, P st) ->
  forall calls st0, Forall P (update_trace calls st0).
Proof.
  intros HP calls. induction calls as [|u rest IH]; intros st0; simpl.
  - constructor.
  - constructor; [apply HP | apply IH].
Qed.

(** C1, as the claim states it, fails: after [update(session_key="")] and
    [update(alive=True)] the status is connected, alive and holds a key that
    is not [None], and [available] is false. *)
Lemma available_counterexample :
  let st := run_updates [args (Given (JStr "")) None None;
                         args Ellipsis None (Some true)]
              ConnectionStatus_init in
  update_trace [args (Given (JStr "")) None None;
                args Ellipsis None (Some true)] ConnectionStatus_init
    = [update (Given (JStr "")) None None ConnectionStatus_init; st] /\
  connected st = true /\ alive st = true /\
  is_not_None (session_key st) = true /\
  available st = false.
Proof. repeat split. Qed.

(** C1 (amended): for every sequence of [update] calls and every starting
    status, immediately after each call [available] equals
    [connected] and [alive] and the truth value of the session key; that
    truth value is false for [None] and for the empty string and true for
    every other string. *)
Theorem available_after_each_update (calls : list UpdateArgs)
    (st0 : ConnectionStatus) :
  Forall (fun st =>
            available st = connected st && alive st && truthy (session_key st) /\
            (session_key st = JNull -> available st = false) /\
            (forall s, session_key st = JStr s ->
               available st =
                 connected st && alive st && negb (String.eqb s "")))
         (update_trace calls st0).
Proof.
  apply update_trace_Forall. intros st.
  rewrite available_unfold. split; [reflexivity|]. split.
  - intros ->. simpl. rewrite andb_false_r. reflexivity.
  - intros s ->. reflexivity.
Qed.

(** C8, as the claim states it, fails: [update(session_key=None,
    connected=True)] supplies the session key and leaves [connected] true,
    not [session_key is not None]. *)
Lemma update_connected_counterexample :
  connected (update (Given JNull) (Some true) None ConnectionStatus_init) = true /\
  is_not_None JNull = false.
Proof. split; reflexivity. Qed.

(** C8 (amended): after [update], the session key is the one supplied, or
    the previous one when the argument is omitted; [alive] is the value
    supplied, or the previous one when omitted; [connected] is the value
    supplied for it, and when that argument is omitted it is
    [session_key is not None] if a session key is supplied and the previous
    value if none is. *)
Theorem update_fields (k : sentinel json) (c a : option bool)
    (st : ConnectionStatus) :
  session_key (update k c a st) =
    match k with Given key => key | Ellipsis => session_key st end /\
  alive (update k c a st) =
    match a with Some b => b | None => alive st end /\
  connected (update k c a st) =
    match c with
    | Some b => b
    | None => match k with
              | Given key => is_not_None key
              | Ellipsis => connected st
              end
    end.
Proof. destruct k, c, a; repeat split. Qed.

End StatusFacts.

(** ** Coroutine plumbing *)

Ltac coro_unfold :=
  unfold bind, lift, ret, raise, suspend, get, modify, try_except.

Section ValidateFacts.

Lemma validate_response_error (v : json) (c : Z) :
  error_code v = Some c -> validate_response v = inl (ProtocolError c v).
Proof.
  destruct v as [| | | | |d]; simpl; try discriminate.
  destruct (dict_get "code" d) as [[| |n| | |]|]; try discriminate.
  destruct (n =? 0)%Z; [discriminate|]. intros [= ->]. reflexivity.
Qed.

Lemma validate_response_ok (v : json) :
  error_code v = None -> validate_response v = inr v.
Proof.
  destruct v as [| | | | |d]; simpl; try reflexivity.
  destruct (dict_get "code" d) as [[| |n| | |]|]; try reflexivity.
  destruct (n =? 0)%Z; [reflexivity|discriminate].
Qed.

Lemma error_code_nonzero (v : json) (c : Z) :
  error_code v = Some c -> c <> 0%Z.
Proof.
  destruct v as [| | | | |d]; simpl; try discriminate.
  destruct (dict_get "code" d) as [[| |n| | |]|]; try discriminate.
  destruct (n =? 0)%Z eqn:E; [discriminate|]. intros [= <-]. lia.
Qed.

End ValidateFacts.

(** ** The socket connection *)

Section WebsocketFacts.
Context `{Collaborators}.
Import ConnectionMixin.

(** The frame handler up to the point where the frame has passed both
    validations. *)
Lemma on_received_error (d : dict) (e : exn) (self : t) :
  frame_error d = Some e ->
  WebsocketConnectionMixin.on_received (JDict d) self = (Raise e, self).
Proof.
  unfold frame_error, WebsocketConnectionMixin.on_received.
  destruct (error_code (JDict d)) as [c|] eqn:Hraw.
  - intros [= <-]. coro_unfold.
    rewrite (validate_response_error _ _ Hraw).
    simpl in Hraw.
    destruct (dict_get "code" d); [|discriminate]. reflexivity.
  - destruct (error_code (default JNull (dict_get "data" d))) as [c|] eqn:Hdata;
      [|discriminate].
    intros [= <-]. coro_unfold.
    rewrite (validate_response_ok _ Hraw).
    rewrite (validate_response_error _ _ Hdata).
    destruct (bool_decide _); reflexivity.
Qed.

Lemma on_received_valid (d : dict) (self : t) :
  frame_error d = None ->
  WebsocketConnectionMixin.on_received (JDict d) self =
    WebsocketConnectionMixin.handle_payload
      (default (JStr "#") (dict_get "syncId" d))
      (default JNull (dict_get "data" d)) self.
Proof.
  unfold frame_error, WebsocketConnectionMixin.on_received.
  destruct (error_code (JDict d)) as [c|] eqn:Hraw; [discriminate|].
  destruct (error_code (default JNull (dict_get "data" d))) as [c|] eqn:Hdata;
    [discriminate|].
  intros _. coro_unfold.
  rewrite (validate_response_ok _ Hraw), (validate_response_ok _ Hdata).
  destruct (bool_decide _); reflexivity.
Qed.

(** [set_result] keeps the set of tokens. *)
Lemma set_result_dom (sync_id data : json) (self : t) :
  dom (futures (WebsocketConnectionMixin.set_result sync_id data self).2)
    = dom (futures self).
Proof.
  unfold WebsocketConnectionMixin.set_result.
  destruct sync_id as [| | |s| |]; try reflexivity.
  destruct (futures self !! s) as [[]|] eqn:E; try reflexivity.
  simpl. rewrite dom_insert_L.
  assert (Hin : s ∈ dom (futures self)) by (apply elem_of_dom; eauto).
  apply subseteq_union_1_L, singleton_subseteq_l, Hin.
Qed.

Lemma handle_payload_dom (sync_id data : json) (self : t) :
  dom (futures (WebsocketConnectionMixin.handle_payload sync_id data self).2)
    = dom (futures self).
Proof.
  unfold WebsocketConnectionMixin.handle_payload,
    WebsocketConnectionMixin.status_update.
  coro_unfold.
  destruct (py_in "session" data) as [e|[]]; try reflexivity.
  - destruct (py_getitem data "session"); reflexivity.
  - destruct (WebsocketConnectionMixin.futures_contains sync_id (futures self))
      as [e|[]]; try reflexivity.
    + apply set_result_dom.
    + destruct (py_in "type" data) as [e|[]]; try reflexivity.
      destruct (build_event data) as [e|ev]; reflexivity.
Qed.

Lemma frame_error_is_protocol_error (d : dict) (e : exn) :
  frame_error d = Some e ->
  exists c payload, e = ProtocolError c payload /\ c <> 0%Z.
Proof.
  unfold frame_error.
  destruct (error_code (JDict d)) as [c|] eqn:Hraw.
  - intros [= <-]. exists c, (JDict d). split; [reflexivity|].
    eapply error_code_nonzero, Hraw.
  - destruct (error_code (default JNull (dict_get "data" d))) as [c|] eqn:Hdata;
      [|discriminate].
    intros [= <-]. eexists c, _. split; [reflexivity|].
    eapply error_code_nonzero, Hdata.
Qed.

(** C2 (amended): when the channel closes while the connection holds one,
    the close handler returns normally, drops the channel, clears the
    session key, sets [alive] to false and sets [connected] to false,
    whatever [connected] was before; the pending-call dictionary, the
    deliveries and the log are as before. *)
Theorem close_resets_status (self : t) (frames : list dict) :
  ws_io self = Some frames ->
  let after := WebsocketConnectionMixin.on_close self in
  after.1 = Return () /\
  session_key (status after.2) = JNull /\
  alive (status after.2) = false /\
  connected (status after.2) = false /\
  ws_io after.2 = None /\
  futures after.2 = futures self /\
  delivered after.2 = delivered self /\
  log after.2 = log self.
Proof.
  intros Hio. unfold WebsocketConnectionMixin.on_close,
    WebsocketConnectionMixin.status_update.
  coro_unfold. rewrite Hio. simpl. repeat split.
Qed.

(** C3 (amended): when an inbound frame carries a nonzero error code, at
    its top level or in its [data], and its token is that of a pending
    call, the frame handler itself raises the [ProtocolError] and changes
    nothing: the entry is still in the pending-call dictionary, its future
    is still pending, and the caller is still suspended on it. *)
Theorem error_frame_raises_in_handler (d : dict) (e : exn) (token : string)
    (self : t) :
  frame_error d = Some e ->
  dict_get "syncId" d = Some (JStr token) ->
  futures self !! token = Some Pending ->
  let after := WebsocketConnectionMixin.on_received (JDict d) self in
  after = (Raise e, self) /\
  (exists c payload, e = ProtocolError c payload /\ c <> 0%Z) /\
  futures after.2 !! token = Some Pending /\
  WebsocketConnectionMixin.await_future token after.2
    = (Suspend (OnFuture token), self).
Proof.
  intros He _ Hpending. simpl.
  rewrite (on_received_error _ _ _ He). simpl.
  split; [reflexivity|]. split; [eapply frame_error_is_protocol_error, He|].
  split; [exact Hpending|].
  unfold WebsocketConnectionMixin.await_future. coro_unfold.
  rewrite Hpending. reflexivity.
Qed.

(** C5: when the frame handler receives a frame that carries no error code
    and whose [data] holds [session] with the string value [S], the handler
    returns normally, the status ends with session key [S] and [connected]
    true, no callback has been given anything and the pending-call
    dictionary is as it was: the only other change is the log line. *)
Theorem session_frame_sets_key (d dd : dict) (S : string) (self : t) :
  frame_error d = None ->
  dict_get "data" d = Some (JDict dd) ->
  dict_get "session" dd = Some (JStr S) ->
  let after := WebsocketConnectionMixin.on_received (JDict d) self in
  after.1 = Return () /\
  session_key (status after.2) = JStr S /\
  connected (status after.2) = true /\
  alive (status after.2) = alive (status self) /\
  delivered after.2 = delivered self /\
  futures after.2 = futures self /\
  ws_io after.2 = ws_io self /\
  fallback after.2 = fallback self.
Proof.
  intros Hok Hdata Hsession. simpl.
  rewrite (on_received_valid _ _ Hok), Hdata. simpl.
  unfold WebsocketConnectionMixin.handle_payload,
    WebsocketConnectionMixin.status_update.
  coro_unfold. simpl. rewrite Hsession. simpl. repeat split.
Qed.

(** C7 (amended): neither handler removes an entry from the pending-call
    dictionary.  The frame handler leaves the set of tokens as it is,
    whatever the frame; resolving a pending call sets the result of its
    future and leaves the entry under its token; the close handler leaves
    the dictionary as it is. *)
Theorem handlers_keep_pending_entries (self : t) :
  (forall raw,
     dom (futures (WebsocketConnectionMixin.on_received raw self).2)
       = dom (futures self)) /\
  futures (WebsocketConnectionMixin.on_close self).2 = futures self /\
  (forall d token,
     frame_error d = None ->
     dict_get "syncId" d = Some (JStr token) ->
     py_in "session" (default JNull (dict_get "data" d)) = inr false ->
     futures self !! token = Some Pending ->
     WebsocketConnectionMixin.on_received (JDict d) self =
       (Return (),
        set_futures
          (insert token (Finished (default JNull (dict_get "data" d))))
          self)).
Proof.
  split; [|split].
  - intros raw. destruct raw as [| | | | |d]; try reflexivity.
    destruct (frame_error d) as [e|] eqn:He.
    + rewrite (on_received_error _ _ _ He). reflexivity.
    + rewrite (on_received_valid _ _ He). apply handle_payload_dom.
  - unfold WebsocketConnectionMixin.on_close,
      WebsocketConnectionMixin.status_update.
    coro_unfold. destruct (ws_io self); reflexivity.
  - intros d token Hok Hsync Hsession Hpending.
    rewrite (on_received_valid _ _ Hok), Hsync. simpl.
    unfold WebsocketConnectionMixin.handle_payload. coro_unfold.
    rewrite Hsession. simpl. rewrite Hpending.
    rewrite bool_decide_eq_true_2 by eauto.
    unfold WebsocketConnectionMixin.set_result. rewrite Hpending.
    reflexivity.
Qed.

(** C10: a multipart call on a socket connection raises
    [NotImplementedError] and leaves the connection object exactly as it
    was - pending-call dictionary, status and channel included - and it
    does so whether or not a fallback connection is attached; a call of any
    other kind has registered its entry by the time it first suspends or
    fails. *)
Theorem multipart_raises_before_registering (sync_id command : string)
    (params : option dict) (self : t) :
  WebsocketConnectionMixin.call sync_id MULTIPART command params self
    = (Raise (NotImplementedError HookHttpClient), self) /\
  (forall fb : HttpClientConnection.t,
     WebsocketConnectionMixin.call sync_id MULTIPART command params
       (set_fallback (Some fb) self)
     = (Raise (NotImplementedError HookHttpClient),
        set_fallback (Some fb) self)) /\
  (forall method, method <> MULTIPART ->
     futures (WebsocketConnectionMixin.call sync_id method command params
                self).2 !! sync_id <> None).
Proof.
  split; [reflexivity|]. split; [reflexivity|].
  intros method Hm.
  unfold WebsocketConnectionMixin.call, WebsocketConnectionMixin.transmit,
    WebsocketConnectionMixin.wait_for_available,
    WebsocketConnectionMixin.send, WebsocketConnectionMixin.await_future,
    WebsocketConnectionMixin.envelope.
  coro_unfold.
  destruct method; try congruence; simpl;
    destruct (available (status self)); simpl;
    try (destruct (ws_io self); simpl);
    rewrite ?lookup_insert_eq; simpl; rewrite ?lookup_insert_eq; congruence.
Qed.

End WebsocketFacts.

(** ** The polling connection *)

Section HttpClientFacts.
Context `{Collaborators}.
Import HttpClientConnection.

Lemma sent_extends_refl (s : t) : sent_extends s s.
Proof. exists []. rewrite app_nil_r. reflexivity. Qed.

Lemma sent_extends_trans (s1 s2 s3 : t) :
  sent_extends s1 s2 -> sent_extends s2 s3 -> sent_extends s1 s3.
Proof.
  intros [m1 H1] [m2 H2]. exists (m1 ++ m2)%list.
  rewrite H2, H1, app_assoc. reflexivity.
Qed.

Lemma monotone_bind {A B} (m : coro t A) (k : A -> coro t B) :
  monotone m -> (forall a, monotone (k a)) -> monotone (bind m k).
Proof.
  intros Hm Hk s. unfold bind. specialize (Hm s).
  destruct (m s) as [[a|e|p] s']; simpl in *; try exact Hm.
  eapply sent_extends_trans; [exact Hm | apply Hk].
Qed.

Lemma monotone_lift {A} (r : exn + A) : monotone (lift r).
Proof. intros s. destruct r; apply sent_extends_refl. Qed.

Lemma monotone_ret {A} (a : A) : monotone (ret a).
Proof. intros s. apply sent_extends_refl. Qed.

Lemma monotone_raise {A} (e : exn) : monotone (@raise t A e).
Proof. intros s. apply sent_extends_refl. Qed.

Lemma monotone_get : monotone get.
Proof. intros s. apply sent_extends_refl. Qed.

Lemma monotone_status_update k c a : monotone (status_update k c a).
Proof. intros s. exists []. simpl. rewrite app_nil_r. reflexivity. Qed.

Lemma monotone_exchange rq : monotone (exchange rq).
Proof.
  intros s. exists [rq]. unfold exchange.
  destruct (gateway s) as [|[e|j] g]; reflexivity.
Qed.

Lemma monotone_request m u p d j : monotone (request m u p d j).
Proof.
  unfold request.
  apply monotone_bind; [apply monotone_lift|]. intros d'.
  apply monotone_bind; [apply monotone_exchange|]. intros r.
  apply monotone_lift.
Qed.

Lemma monotone_try_except {A} (m : coro t A) catches handler :
  monotone m -> (forall e, monotone (handler e)) ->
  monotone (try_except m catches handler).
Proof.
  intros Hm Hh s. unfold try_except. specialize (Hm s).
  destruct (m s) as [[a|e|p] s']; simpl in *; try exact Hm.
  destruct (catches e); simpl; [|exact Hm].
  eapply sent_extends_trans; [exact Hm | apply Hh].
Qed.

Lemma monotone_dispatch method command params :
  monotone (dispatch method command params).
Proof.
  unfold dispatch. apply monotone_bind; [apply monotone_get|].
  intros s. destruct method; apply monotone_request.
Qed.

(** What [call] runs once it is through the gate and holds a session key. *)
Lemma monotone_guarded method command params :
  monotone
    (try_except (dispatch method command params) is_InvalidSession
       (fun e => bind (status_update (Given JNull) None None)
                   (fun _ => raise e))).
Proof.
  apply monotone_try_except; [apply monotone_dispatch|]. intros e.
  apply monotone_bind; [apply monotone_status_update|]. intros _.
  apply monotone_raise.
Qed.

(** The handshake starts with the verification request. *)
Lemma http_auth_sends_verify (self : t) :
  exists more,
    sent (http_auth self).2 = (sent self ++ verify_request self :: more)%list.
Proof.
  unfold http_auth, request. coro_unfold. simpl.
  set (rq := {| rq_method := "POST" |}).
  change rq with (verify_request self).
  unfold exchange at 1.
  destruct (gateway self) as [|[e|j] g]; simpl;
    try (exists []; reflexivity).
  destruct (validate_response j) as [e|data]; simpl;
    try (exists []; reflexivity).
  destruct (py_getitem data "session") as [e|key]; simpl;
    try (exists []; reflexivity).
  unfold exchange.
  destruct g as [|[e|j'] g']; simpl;
    try (eexists [_]; rewrite <- app_assoc; reflexivity).
  destruct (validate_response j') as [e|data']; simpl;
    eexists [_]; rewrite <- app_assoc; reflexivity.
Qed.

Lemma wait_connected_through (wakeups : list UpdateArgs) (self : t) :
  connected (status self) = true ->
  wait_connected wakeups self = (Return (), self).
Proof. intros Hc. destruct wakeups; simpl; rewrite Hc; reflexivity. Qed.

(** Past the gate, a call with a session key goes straight to its request
    and one without runs the handshake first. *)
Lemma call_connected (wakeups : list UpdateArgs) (method : CallMethod)
    (command : string) (params : option dict) (self : t) :
  connected (status self) = true ->
  call wakeups method command params self =
    bind (if truthy (session_key (status self)) then ret () else http_auth)
      (fun _ =>
         try_except
           (dispatch method (replace_underscores command) (or_empty params))
           is_InvalidSession
           (fun e => bind (status_update (Given JNull) None None)
                       (fun _ => raise e))) self.
Proof.
  intros Hc. unfold call, bind at 1.
  rewrite (wait_connected_through _ _ Hc). reflexivity.
Qed.

Lemma call_without_key_sends_verify (wakeups : list UpdateArgs)
    (method : CallMethod) (command : string) (params : option dict)
    (self : t) :
  connected (status self) = true ->
  truthy (session_key (status self)) = false ->
  exists more,
    sent (call wakeups method command params self).2
      = (sent self ++ verify_request self :: more)%list.
Proof.
  intros Hc Hk. rewrite (call_connected _ _ _ _ _ Hc), Hk.
  destruct (http_auth_sends_verify self) as [more Hmore].
  unfold bind at 1.
  destruct (http_auth self) as [[[]|e|p] s1]; simpl in *; eauto.
  destruct (monotone_guarded method (replace_underscores command)
              (or_empty params) s1) as [more' Hmore'].
  exists (more ++ more')%list.
  rewrite Hmore', Hmore, <- app_assoc. reflexivity.
Qed.

(** C4 (amended): a call made while [connected] is false stays suspended
    and sends nothing as long as no other task updates the status; a call
    made while [connected] is true and the session key is absent sends the
    verification request of the handshake before anything else; and when
    the request of a call is rejected with [InvalidSession], the call
    clears the session key - which also sets [connected] to false - and
    raises the same error again.  The next call therefore stays suspended
    at the [connected] gate and sends nothing; it runs the handshake before
    its own request once another task has set [connected] to true while
    the key is still absent. *)
Theorem call_gate_and_invalid_session :
  (forall self method command params,
     connected (status self) = false ->
     call [] method command params self = (Suspend OnUpdate, self)) /\
  (forall self wakeups method command params,
     connected (status self) = true ->
     truthy (session_key (status self)) = false ->
     exists more,
       sent (call wakeups method command params self).2
         = (sent self ++ verify_request self :: more)%list) /\
  (forall self self' wakeups method command params e,
     connected (status self) = true ->
     truthy (session_key (status self)) = true ->
     dispatch method (replace_underscores command) (or_empty params) self
       = (Raise e, self') ->
     is_InvalidSession e = true ->
     let after := call wakeups method command params self in
     after = (Raise e, set_status (update (Given JNull) None None) self') /\
     session_key (status after.2) = JNull /\
     connected (status after.2) = false /\
     (forall method' command' params',
        call [] method' command' params' after.2
          = (Suspend OnUpdate, after.2)) /\
     (forall method' command' params',
        exists more,
          sent (call [args Ellipsis (Some true) None]
                  method' command' params' after.2).2
            = (sent after.2 ++ verify_request after.2 :: more)%list)).
Proof.
  assert (Hgate : forall self method command params,
    connected (status self) = false ->
    call [] method command params self = (Suspend OnUpdate, self)).
  { intros self method command params Hc.
    unfold call, bind. simpl. rewrite Hc. reflexivity. }
  split; [exact Hgate|]. split; [intros; apply call_without_key_sends_verify; assumption|].
  intros self self' wakeups method command params e Hc Hk Hd He after.
  assert (Hafter : after =
    (Raise e, set_status (update (Given JNull) None None) self')).
  { subst after. rewrite (call_connected _ _ _ _ _ Hc), Hk.
    unfold bind at 1. unfold ret at 1. unfold try_except.
    rewrite Hd, He. reflexivity. }
  rewrite Hafter. simpl.
  split; [reflexivity|]. split; [reflexivity|]. split; [reflexivity|].
  split.
  - intros. apply Hgate. reflexivity.
  - intros method' command' params'.
    set (s := set_status (update (Given JNull) None None) self').
    set (woken := add_log (LogDebug "Got update")
                    (set_status (apply_update (args Ellipsis (Some true) None)) s)).
    assert (Hcall : call [args Ellipsis (Some true) None]
                      method' command' params' s
                    = call [] method' command' params' woken).
    { unfold call, bind. reflexivity. }
    rewrite Hcall.
    destruct (call_without_key_sends_verify [] method' command' params' woken)
      as [more Hmore]; [reflexivity|reflexivity|].
    exists more. exact Hmore.
Qed.

(** *** The run loop *)

Lemma first_raised_none (results : list (option exn)) :
  Forall (fun r => r = None) results -> first_raised results = None.
Proof. induction 1 as [|r rs -> _ IH]; simpl; auto. Qed.

Lemma gather_delivers (event : Event) (self : t) :
  Forall (fun cb : callback => cb event = None) (event_callbacks self) ->
  gather event self =
    (Return (),
     add_delivered (imap (fun i _ => (i, event)) (event_callbacks self)) self).
Proof.
  intros Hcb. unfold gather, invoke_all.
  rewrite first_raised_none; [reflexivity|].
  apply Forall_map. exact Hcb.
Qed.

Lemma add_delivered_nil (self : t) : add_delivered [] self = self.
Proof. destruct self. unfold add_delivered. simpl. rewrite app_nil_r. reflexivity. Qed.

Lemma add_delivered_app (a b : list (nat * Event)) (self : t) :
  add_delivered b (add_delivered a self) = add_delivered (a ++ b) self.
Proof. unfold add_delivered. simpl. rewrite app_assoc. reflexivity. Qed.

(** The deliveries of a batch: every event, in order, to every callback. *)
Lemma dispatch_all_delivers (items : list json) (events : list Event)
    (self : t) :
  Forall2 (fun item event => build_event item = inr event) items events ->
  Forall (fun event =>
            Forall (fun cb : callback => cb event = None)
                   (event_callbacks self)) events ->
  dispatch_all items self =
    (Return (),
     add_delivered
       (flat_map (fun event => imap (fun i _ => (i, event))
                                 (event_callbacks self)) events) self).
Proof.
  intros Hbuild. revert self.
  induction Hbuild as [|item event items events Hitem _ IH]; intros self Hcb.
  - simpl. rewrite add_delivered_nil. reflexivity.
  - inversion Hcb as [|? ? Hev Hrest]; subst.
    simpl. unfold bind at 1. unfold lift. rewrite Hitem. unfold ret at 1.
    unfold bind at 1. rewrite (gather_delivers _ _ Hev).
    rewrite IH by exact Hrest. simpl.
    rewrite add_delivered_app. reflexivity.
Qed.

Lemma poll_once_delivers (items : list json) (events : list Event)
    (rest : list (exn + json)) (self : t) :
  gateway self = inr (JList items) :: rest ->
  Forall2 (fun item event => build_event item = inr event) items events ->
  Forall (fun event =>
            Forall (fun cb : callback => cb event = None)
                   (event_callbacks self)) events ->
  poll_once self =
    (Return (),
     {| config := config self;
        status := update Ellipsis None (Some true) (status self);
        event_callbacks := event_callbacks self;
        gateway := rest;
        sent := sent self ++ [fetch_request self];
        delivered :=
          delivered self ++
          flat_map (fun event => imap (fun i _ => (i, event))
                                   (event_callbacks self)) events;
        log := log self |}).
Proof.
  intros Hg Hbuild Hcb.
  unfold poll_once, request, exchange, status_update. coro_unfold.
  simpl. rewrite Hg. simpl.
  match goal with
  | |- context [dispatch_all items ?s] =>
      rewrite (dispatch_all_delivers items events s Hbuild Hcb)
  end.
  reflexivity.
Qed.

Lemma poll_exit (ticks : list (list UpdateArgs)) (self : t) :
  connected (status self) = false -> poll ticks self = (Return (), self).
Proof. intros Hc. destruct ticks; simpl; rewrite Hc; reflexivity. Qed.

Lemma poll_step (others : list UpdateArgs) (ticks : list (list UpdateArgs))
    (self : t) :
  connected (status self) = true ->
  poll (others :: ticks) self =
    bind (modify (set_status (run_updates others)))
      (fun _ => bind poll_once (fun _ => poll ticks)) self.
Proof. intros Hc. simpl. rewrite Hc. reflexivity. Qed.

(** The loop returns only through its test. *)
Lemma poll_returns_disconnected (ticks : list (list UpdateArgs)) (self : t) :
  (poll ticks self).1 = Return () ->
  connected (status (poll ticks self).2) = false.
Proof.
  revert self. induction ticks as [|others ticks IH]; intros self.
  - simpl. destruct (connected (status self)) eqn:Hc; simpl;
      [discriminate | intros _; exact Hc].
  - destruct (connected (status self)) eqn:Hc.
    + rewrite (poll_step _ _ _ Hc). unfold bind, modify.
      destruct (poll_once (set_status (run_updates others) self))
        as [[[]|e|p] s1]; simpl; try discriminate.
      apply IH.
    + rewrite (poll_exit _ _ Hc). intros _. exact Hc.
Qed.

Lemma http_auth_sends_at_most_two (self : t) :
  length (sent (http_auth self).2) <= length (sent self) + 2.
Proof.
  unfold http_auth, request, exchange, status_update. coro_unfold. simpl.
  destruct (gateway self) as [|[e|j] g]; simpl;
    rewrite ?length_app; simpl; try lia.
  destruct (validate_response j) as [e|data]; simpl;
    rewrite ?length_app; simpl; try lia.
  destruct (py_getitem data "session") as [e|key]; simpl;
    rewrite ?length_app; simpl; try lia.
  destruct g as [|[e|j'] g']; simpl;
    rewrite ?length_app; simpl; rewrite ?length_app; simpl; try lia.
  destruct (validate_response j') as [e|data']; simpl;
    rewrite ?length_app; simpl; rewrite ?length_app; simpl; lia.
Qed.

Lemma http_auth_delivered (self : t) :
  delivered (http_auth self).2 = delivered self.
Proof.
  unfold http_auth, request, exchange, status_update. coro_unfold. simpl.
  destruct (gateway self) as [|[e|j] g]; simpl; try reflexivity.
  destruct (validate_response j) as [e|data]; simpl; try reflexivity.
  destruct (py_getitem data "session") as [e|key]; simpl; try reflexivity.
  destruct g as [|[e|j'] g']; simpl; try reflexivity.
  destruct (validate_response j') as [e|data']; reflexivity.
Qed.

Lemma some_callback_raises (event : Event) (callbacks : list callback) :
  Exists (fun cb : callback => cb event <> None) callbacks ->
  exists e, first_raised (map (fun cb : callback => cb event) callbacks)
            = Some e.
Proof.
  induction 1 as [cb rest Hcb | cb rest _ IH]; simpl.
  - destruct (cb event) as [e|]; [eauto | congruence].
  - destruct (cb event) as [e|]; [eauto | exact IH].
Qed.

Lemma gather_raises (event : Event) (self : t) :
  Exists (fun cb : callback => cb event <> None) (event_callbacks self) ->
  exists e,
    gather event self =
      (Raise e,
       add_delivered (imap (fun i _ => (i, event)) (event_callbacks self))
         self).
Proof.
  intros Hfail.
  destruct (some_callback_raises event _ Hfail) as [e He].
  exists e. unfold gather, invoke_all. unfold callback in *.
  rewrite He. reflexivity.
Qed.

(** A batch whose items decode and whose callbacks complete up to some item:
    what happens at that item when it does not decode, and when it decodes
    and a callback fails on it. *)
Lemma dispatch_all_cut_short (good : list json) (events : list Event)
    (item : json) (rest : list json) (self : t) :
  Forall2 (fun item event => build_event item = inr event) good events ->
  Forall (fun event =>
            Forall (fun cb : callback => cb event = None)
                   (event_callbacks self)) events ->
  (forall e, build_event item = inl e ->
     dispatch_all (good ++ item :: rest) self =
       (Raise e,
        add_delivered
          (flat_map (fun event => imap (fun i _ => (i, event))
                                    (event_callbacks self)) events) self)) /\
  (forall event,
     build_event item = inr event ->
     Exists (fun cb : callback => cb event <> None) (event_callbacks self) ->
     exists e,
       dispatch_all (good ++ item :: rest) self =
         (Raise e,
          add_delivered
            (flat_map (fun event => imap (fun i _ => (i, event))
                                      (event_callbacks self))
                      (events ++ [event])) self)).
Proof.
  intros Hbuild. revert self.
  induction Hbuild as [|item0 event0 items events' Hitem _ IH];
    intros self Hcb.
  - split.
    + intros e Hbad. simpl. unfold bind, lift. rewrite Hbad.
      rewrite add_delivered_nil. reflexivity.
    + intros event Hok Hfail.
      destruct (gather_raises event self Hfail) as [e He].
      exists e. simpl. unfold bind at 1. unfold lift. rewrite Hok.
      unfold ret at 1. unfold bind at 1. rewrite He.
      simpl. rewrite app_nil_r. reflexivity.
  - inversion Hcb as [|? ? Hev Hrest]; subst.
    destruct (IH (add_delivered
                    (imap (fun i _ => (i, event0)) (event_callbacks self))
                    self) Hrest) as (IHbad & IHfail).
    split.
    + intros e Hbad. simpl. unfold bind at 1. unfold lift at 1.
      rewrite Hitem. unfold ret at 1. unfold bind at 1.
      rewrite (gather_delivers _ _ Hev).
      rewrite (IHbad e Hbad). simpl.
      rewrite add_delivered_app. reflexivity.
    + intros event Hok Hfail.
      destruct (IHfail event Hok Hfail) as [e He]. exists e.
      simpl. unfold bind at 1. unfold lift at 1.
      rewrite Hitem. unfold ret at 1. unfold bind at 1.
      rewrite (gather_delivers _ _ Hev).
      rewrite He. simpl.
      rewrite add_delivered_app. reflexivity.
Qed.

Lemma poll_once_fetch_raises (s : t) (reply : exn + json)
    (rest : list (exn + json)) (e : exn) :
  gateway s = reply :: rest ->
  (reply = inl e \/
   exists j c, reply = inr j /\ error_code j = Some c /\ e = ProtocolError c j) ->
  poll_once s = (Raise e, after_fetch s (status s) rest []).
Proof.
  intros Hg Hreply.
  unfold poll_once, request, exchange, status_update, after_fetch.
  coro_unfold. cbn [prepare_data]. rewrite Hg.
  destruct Hreply as [-> | (j & c & -> & Hc & ->)]; cbn.
  - rewrite app_nil_r. reflexivity.
  - rewrite (validate_response_error _ _ Hc). cbn.
    rewrite app_nil_r. reflexivity.
Qed.

Lemma poll_once_not_a_list (s : t) (j : json) (rest : list (exn + json)) :
  gateway s = inr j :: rest ->
  error_code j = None ->
  (forall items, j <> JList items) ->
  poll_once s =
    (Raise AssertionError,
     after_fetch s (update Ellipsis None (Some true) (status s)) rest []).
Proof.
  intros Hg Hok Hnl.
  unfold poll_once, request, exchange, status_update, after_fetch.
  coro_unfold. cbn [prepare_data]. rewrite Hg. cbn.
  rewrite (validate_response_ok _ Hok). cbn.
  destruct j; cbn; rewrite ?app_nil_r; try reflexivity.
  exfalso. eapply Hnl. reflexivity.
Qed.

Lemma poll_once_cut_short (s : t) (good : list json) (events : list Event)
    (item : json) (later : list json) (rest : list (exn + json)) :
  gateway s = inr (JList (good ++ item :: later)) :: rest ->
  Forall2 (fun item event => build_event item = inr event) good events ->
  Forall (fun event =>
            Forall (fun cb : callback => cb event = None)
                   (event_callbacks s)) events ->
  (forall e, build_event item = inl e ->
     poll_once s =
       (Raise e,
        after_fetch s (update Ellipsis None (Some true) (status s)) rest
          events)) /\
  (forall event,
     build_event item = inr event ->
     Exists (fun cb : callback => cb event <> None) (event_callbacks s) ->
     exists e,
       poll_once s =
         (Raise e,
          after_fetch s (update Ellipsis None (Some true) (status s)) rest
            (events ++ [event]))).
Proof.
  intros Hg Hbuild Hcb.
  set (s1 := {| config := config s;
                status := update Ellipsis None (Some true) (status s);
                event_callbacks := event_callbacks s;
                gateway := rest;
                sent := sent s ++ [fetch_request s];
                delivered := delivered s;
                log := log s |}).
  assert (Hpoll : poll_once s = dispatch_all (good ++ item :: later) s1).
  { unfold poll_once, request, exchange, status_update. coro_unfold.
    cbn [prepare_data]. rewrite Hg. reflexivity. }
  destruct (dispatch_all_cut_short good events item later s1 Hbuild Hcb)
    as (Hbad & Hfail).
  rewrite Hpoll. split.
  - intros e He. rewrite (Hbad e He). reflexivity.
  - intros event Hok Hex. destruct (Hfail event Hok Hex) as [e He].
    exists e. rewrite He. reflexivity.
Qed.

Lemma mainline_loop_raises (ticks : list (list UpdateArgs)) (e : exn)
    (self s1 s2 : t) :
  http_auth self = (Return (), s1) ->
  poll ticks s1 = (Raise e, s2) ->
  mainline ticks self = (Raise e, s2).
Proof.
  intros Hauth Hpoll. unfold mainline. rewrite Hauth.
  unfold bind. rewrite Hpoll. reflexivity.
Qed.

(** C9 (amended): the run loop of the polling connection.  If the handshake
    raises an exception, [mainline] clears the session key, logs the exception
    and returns without sending anything beyond the at most two requests of
    the failed handshake and without delivering anything.  If the handshake
    succeeds, [mainline] runs the loop and then sets [alive] to false;
    whenever it returns, [alive] and [connected] are false.  The loop returns
    at once when [connected] is false; while [connected] is true it sleeps,
    then fetches, then goes round again.  A pass sends one [fetchMessage]
    request with the session key and a count of 10, then sets [alive] to
    true, then hands the returned items out in order, every event to every
    callback - as far as the first exception: a fetch that fails or is
    refused raises with the status as it was; an answer that is not a list,
    an item that does not decode and a callback that fails raise after
    [alive] has been set, and the items after that point are not delivered.
    Whatever the loop raises leaves [mainline] with the connection as the
    loop left it: the loop is not resumed and [alive] is not set to false. *)
Theorem mainline_run_loop (ticks : list (list UpdateArgs)) (self : t) :
  (forall e self',
     http_auth self = (Raise e, self') ->
     is_Exception e = true ->
     mainline ticks self =
       (Return (),
        add_log (LogException e)
          (set_status (update (Given JNull) None None) self')) /\
     session_key (status (mainline ticks self).2) = JNull /\
     log (mainline ticks self).2 = (log self' ++ [LogException e])%list /\
     sent (mainline ticks self).2 = sent self' /\
     length (sent self') <= length (sent self) + 2 /\
     delivered (mainline ticks self).2 = delivered self) /\
  (forall s1,
     http_auth self = (Return (), s1) ->
     mainline ticks self =
       bind (poll ticks)
         (fun _ => status_update Ellipsis None (Some false)) s1 /\
     ((mainline ticks self).1 = Return () ->
      alive (status (mainline ticks self).2) = false /\
      connected (status (mainline ticks self).2) = false)) /\
  (forall s,
     connected (status s) = false -> poll ticks s = (Return (), s)) /\
  (forall s others ticks',
     connected (status s) = true ->
     poll (others :: ticks') s =
       bind (modify (set_status (run_updates others)))
         (fun _ => bind poll_once (fun _ => poll ticks')) s) /\
  (forall s items events rest,
     gateway s = inr (JList items) :: rest ->
     Forall2 (fun item event => build_event item = inr event) items events ->
     Forall (fun event =>
               Forall (fun cb : callback => cb event = None)
                      (event_callbacks s)) events ->
     poll_once s =
       (Return (),
        {| config := config s;
           status := update Ellipsis None (Some true) (status s);
           event_callbacks := event_callbacks s;
           gateway := rest;
           sent := sent s ++ [fetch_request s];
           delivered :=
             delivered s ++
             flat_map (fun event => imap (fun i _ => (i, event))
                                      (event_callbacks s)) events;
           log := log s |})) /\
  (forall s reply rest e,
     gateway s = reply :: rest ->
     (reply = inl e \/
      exists j c,
        reply = inr j /\ error_code j = Some c /\ e = ProtocolError c j) ->
     poll_once s = (Raise e, after_fetch s (status s) rest [])) /\
  (forall s j rest,
     gateway s = inr j :: rest ->
     error_code j = None ->
     (forall items, j <> JList items) ->
     poll_once s =
       (Raise AssertionError,
        after_fetch s (update Ellipsis None (Some true) (status s)) rest [])) /\
  (forall s good events item later rest,
     gateway s = inr (JList (good ++ item :: later)) :: rest ->
     Forall2 (fun item event => build_event item = inr event) good events ->
     Forall (fun event =>
               Forall (fun cb : callback => cb event = None)
                      (event_callbacks s)) events ->
     (forall e, build_event item = inl e ->
        poll_once s =
          (Raise e,
           after_fetch s (update Ellipsis None (Some true) (status s)) rest
             events)) /\
     (forall event,
        build_event item = inr event ->
        Exists (fun cb : callback => cb event <> None) (event_callbacks s) ->
        exists e,
          poll_once s =
            (Raise e,
             after_fetch s (update Ellipsis None (Some true) (status s)) rest
               (events ++ [event])))) /\
  (forall e s1 s2,
     http_auth self = (Return (), s1) ->
     poll ticks s1 = (Raise e, s2) ->
     mainline ticks self = (Raise e, s2)).
Proof.
  split; [|split; [|split; [|split; [|split; [|split; [|split; [|split]]]]]]].
  - intros e self' Hauth Hexn.
    assert (Hm : mainline ticks self =
      (Return (),
       add_log (LogException e)
         (set_status (update (Given JNull) None None) self'))).
    { unfold mainline. rewrite Hauth, Hexn. reflexivity. }
    rewrite Hm. simpl. repeat split.
    + pose proof (http_auth_sends_at_most_two self) as Hlen.
      rewrite Hauth in Hlen. exact Hlen.
    + pose proof (http_auth_delivered self) as Hd.
      rewrite Hauth in Hd. exact Hd.
  - intros s1 Hauth.
    assert (Hm : mainline ticks self =
      bind (poll ticks)
        (fun _ => status_update Ellipsis None (Some false)) s1).
    { unfold mainline. rewrite Hauth. reflexivity. }
    split; [exact Hm|]. rewrite Hm. unfold bind.
    pose proof (poll_returns_disconnected ticks s1) as Hexit.
    destruct (poll ticks s1) as [[[]|e|p] s2]; simpl; try discriminate.
    intros _. split; [reflexivity|]. apply Hexit. reflexivity.
  - intros s. apply poll_exit.
  - intros s others ticks'. apply poll_step.
  - intros s items events rest. apply poll_once_delivers.
  - intros s reply rest e. apply poll_once_fetch_raises.
  - intros s j rest. apply poll_once_not_a_list.
  - intros s good events item later rest. apply poll_once_cut_short.
  - intros e s1 s2. apply mainline_loop_raises.
Qed.

End HttpClientFacts.

(** ** Fallback delegation *)

Section FallbackFacts.
Context `{Collaborators}.
Import ConnectionMixin.

(** C6 (amended): a connection whose class inherits the base [call] - the
    inbound-HTTP connection, which handles no call kind itself - hands the
    call to the fallback when one is attached, whatever the kind, and is
    otherwise unchanged; with no fallback attached the call raises
    [NotImplementedError] at once, with a message built from the
    connection's [repr] and the command, and the connection is unchanged.
    A multipart call on a socket connection with no fallback raises
    [NotImplementedError] at once as well and leaves the connection
    unchanged; its message is the fixed text about hooking an
    [HttpClientConnection], which does not carry the connection. *)
Theorem base_call_delegates_or_refuses (sync_id : string)
    (wakeups : list UpdateArgs) (method : CallMethod) (command : string)
    (params : option dict) (self : t) :
  (cls self = HttpServerConnection ->
   resolved_call sync_id wakeups method command params self
     = ConnectionMixin.call wakeups method command params self) /\
  (forall fb,
     fallback self = Some fb ->
     ConnectionMixin.call wakeups method command params self
       = ((HttpClientConnection.call wakeups method command params fb).1,
          set_fallback
            (Some (HttpClientConnection.call wakeups method command params fb).2)
            self)) /\
  (fallback self = None ->
   ConnectionMixin.call wakeups method command params self
     = (Raise (NotImplementedError (CantPerform (repr self) command)), self)) /\
  (cls self <> HttpServerConnection ->
   fallback self = None ->
   resolved_call sync_id wakeups MULTIPART command params self
     = (Raise (NotImplementedError HookHttpClient), self)).
Proof.
  split; [|split; [|split]].
  - intros Hcls. unfold resolved_call. rewrite Hcls. reflexivity.
  - intros fb Hfb. unfold ConnectionMixin.call. rewrite Hfb.
    destruct (HttpClientConnection.call _ _ _ _ fb); reflexivity.
  - intros Hfb. unfold ConnectionMixin.call. rewrite Hfb. reflexivity.
  - intros Hcls _. unfold resolved_call.
    destruct (cls self); try congruence; reflexivity.
Qed.

End FallbackFacts.

(** ** Worked examples *)

Section Examples.
#[local] Existing Instance sample_collaborators.
Import ConnectionMixin.

(** C2, as the claim states it, fails: the socket is connected before the
    channel closes and no longer connected after the close handler. *)
Lemma close_connected_counterexample :
  connected (status sample_socket) = true /\
  connected (status (WebsocketConnectionMixin.on_close sample_socket).2)
    = false.
Proof. split; reflexivity. Qed.

(** The close handler on the sample socket, whose channel is open. *)
Lemma close_resets_status_witness :
  ws_io sample_socket = Some [] /\
  (WebsocketConnectionMixin.on_close sample_socket).1 = Return () /\
  session_key (status (WebsocketConnectionMixin.on_close sample_socket).2)
    = JNull /\
  connected (status (WebsocketConnectionMixin.on_close sample_socket).2)
    = false.
Proof.
  split; [reflexivity|].
  destruct (close_resets_status sample_socket [] eq_refl)
    as (Hret & Hkey & _ & Hconn & _).
  split; [exact Hret|]. split; [exact Hkey | exact Hconn].
Defined.

(** C3, as the claim states it, fails: after the error frame for token
    ["t"] the handler has raised, and the entry under ["t"] is still in the
    dictionary with its future pending. *)
Lemma error_frame_counterexample :
  futures sample_socket !! "t" = Some Pending /\
  (WebsocketConnectionMixin.on_received (JDict error_frame) sample_socket).1
    = Raise (ProtocolError 5 (JDict error_frame)) /\
  futures
    (WebsocketConnectionMixin.on_received (JDict error_frame) sample_socket).2
    !! "t" = Some Pending.
Proof. repeat split. Qed.

(** The error frame for token ["t"] on the sample socket. *)
Lemma error_frame_raises_in_handler_witness :
  frame_error error_frame = Some (ProtocolError 5 (JDict error_frame)) /\
  dict_get "syncId" error_frame = Some (JStr "t") /\
  futures sample_socket !! "t" = Some Pending /\
  WebsocketConnectionMixin.on_received (JDict error_frame) sample_socket
    = (Raise (ProtocolError 5 (JDict error_frame)), sample_socket).
Proof.
  split; [reflexivity|]. split; [reflexivity|]. split; [reflexivity|].
  exact (proj1 (error_frame_raises_in_handler error_frame _ "t" sample_socket
                  eq_refl eq_refl eq_refl)).
Defined.

(** A handshake acknowledgement carrying the key ["S2"]. *)
Lemma session_frame_sets_key_witness :
  frame_error session_frame = None /\
  session_key
    (status (WebsocketConnectionMixin.on_received (JDict session_frame)
               sample_socket).2) = JStr "S2" /\
  connected
    (status (WebsocketConnectionMixin.on_received (JDict session_frame)
               sample_socket).2) = true.
Proof.
  split; [reflexivity|].
  destruct (session_frame_sets_key session_frame
              [("code", JNum 0); ("session", JStr "S2")] "S2" sample_socket
              eq_refl eq_refl eq_refl)
    as (_ & Hkey & Hconn & _).
  split; [exact Hkey | exact Hconn].
Defined.

(** C7, as the claim states it, fails: the answer to the call pending under
    ["t"] resolves it and the entry stays in the dictionary; the close
    handler leaves the pending entry where it is. *)
Lemma resolved_entry_counterexample :
  (WebsocketConnectionMixin.on_received (JDict answer_frame) sample_socket).1
    = Return () /\
  futures
    (WebsocketConnectionMixin.on_received (JDict answer_frame) sample_socket).2
    !! "t" = Some (Finished (JDict [("messageId", JNum 42)])) /\
  (WebsocketConnectionMixin.on_close sample_socket).1 = Return () /\
  futures (WebsocketConnectionMixin.on_close sample_socket).2 !! "t"
    = Some Pending.
Proof. repeat split. Qed.

(** The answer to the call pending under ["t"] resolves it in place. *)
Lemma handlers_keep_pending_entries_witness :
  frame_error answer_frame = None /\
  futures sample_socket !! "t" = Some Pending /\
  WebsocketConnectionMixin.on_received (JDict answer_frame) sample_socket
    = (Return (),
       set_futures
         (insert "t" (Finished (JDict [("messageId", JNum 42)])))
         sample_socket).
Proof.
  split; [reflexivity|]. split; [reflexivity|].
  exact (proj2 (proj2 (handlers_keep_pending_entries sample_socket))
           answer_frame "t" eq_refl eq_refl eq_refl eq_refl).
Defined.

(** A multipart call and a plain call on the sample socket. *)
Lemma multipart_raises_before_registering_witness :
  GET <> MULTIPART /\
  WebsocketConnectionMixin.call "u" MULTIPART "uploadImage" None sample_socket
    = (Raise (NotImplementedError HookHttpClient), sample_socket) /\
  futures
    (WebsocketConnectionMixin.call "u" GET "about" None sample_socket).2
    !! "u" <> None.
Proof.
  split; [discriminate|].
  destruct (multipart_raises_before_registering "u" "uploadImage" None
              sample_socket) as (Hraise & _ & _).
  split; [exact Hraise|].
  apply (proj2 (proj2 (multipart_raises_before_registering "u" "about" None
                         sample_socket))).
  discriminate.
Defined.

(** C4, as the claim states it, fails: the first call is rejected with the
    invalid-session error and clears the key; the next call, on a gateway
    ready to serve a new handshake, is left suspended on the status and has
    sent nothing - no handshake request, no request of its own. *)
Lemma next_call_waits_counterexample :
  let first :=
    HttpClientConnection.call [] GET "friendList" None rejected_client in
  let second :=
    HttpClientConnection.call [] GET "friendList" None first.2 in
  first.1 = Raise (ProtocolError 3 invalid_session_answer) /\
  session_key (HttpClientConnection.status first.2) = JNull /\
  HttpClientConnection.gateway first.2
    = [inr (verify_answer "K2"); inr ok_answer; inr ok_answer] /\
  second.1 = Suspend OnUpdate /\
  HttpClientConnection.sent second.2 = HttpClientConnection.sent first.2 /\
  length (HttpClientConnection.sent second.2) = 1.
Proof. repeat split. Qed.

(** The rejected call, then the next call: parked while nobody touches the
    status, and handshaking for ["K2"] before its request once another task
    has set [connected]. *)
Lemma call_gate_and_invalid_session_witness :
  let first :=
    HttpClientConnection.call [] GET "friendList" None rejected_client in
  let woken :=
    HttpClientConnection.call [args Ellipsis (Some true) None]
      GET "friendList" None first.2 in
  connected (HttpClientConnection.status rejected_client) = true /\
  truthy (session_key (HttpClientConnection.status rejected_client)) = true /\
  is_InvalidSession (ProtocolError 3 invalid_session_answer) = true /\
  first.1 = Raise (ProtocolError 3 invalid_session_answer) /\
  connected (HttpClientConnection.status first.2) = false /\
  HttpClientConnection.call [] GET "friendList" None first.2
    = (Suspend OnUpdate, first.2) /\
  woken.1 = Return ok_answer /\
  session_key (HttpClientConnection.status woken.2) = JStr "K2" /\
  map HttpClientConnection.rq_url (HttpClientConnection.sent woken.2)
    = ["http://gateway/friendList"; "http://gateway/verify";
       "http://gateway/bind"; "http://gateway/friendList"].
Proof.
  intros first woken.
  split; [reflexivity|]. split; [reflexivity|]. split; [reflexivity|].
  destruct (proj2 (proj2 call_gate_and_invalid_session)
              rejected_client _ [] GET "friendList" None
              (ProtocolError 3 invalid_session_answer)
              eq_refl eq_refl eq_refl eq_refl)
    as (Hfirst & _ & Hconn & Hgate & _).
  split; [exact (f_equal fst Hfirst)|]. split; [exact Hconn|].
  split; [exact (Hgate GET "friendList" None)|].
  repeat split.
Defined.

(** C6, as the claim states it, fails on a socket connection: its multipart
    call with no fallback raises an error whose message is not built from
    the connection, and with a fallback attached that would have answered,
    the call raises all the same and the fallback has sent nothing. *)
Lemma socket_multipart_counterexample :
  let attached := set_fallback (Some ready_fallback) sample_socket in
  native (cls sample_socket) MULTIPART = false /\
  (resolved_call "u" [] MULTIPART "uploadImage" None sample_socket).1
    = Raise (NotImplementedError HookHttpClient) /\
  HookHttpClient <> CantPerform (repr sample_socket) "uploadImage" /\
  (HttpClientConnection.call [] MULTIPART "uploadImage" None ready_fallback).1
    = Return ok_answer /\
  resolved_call "u" [] MULTIPART "uploadImage" None attached
    = (Raise (NotImplementedError HookHttpClient), attached) /\
  HttpClientConnection.sent ready_fallback = [].
Proof. repeat split. discriminate. Qed.

(** The inbound-HTTP connection without and with a fallback, and the sample
    socket without one. *)
Lemma base_call_delegates_or_refuses_witness :
  cls (sample_http_server None) = HttpServerConnection /\
  fallback (sample_http_server (Some ready_fallback)) = Some ready_fallback /\
  resolved_call "u" [] MULTIPART "uploadImage" None (sample_http_server None)
    = (Raise (NotImplementedError
                (CantPerform
                   "<HttpServerConnection <ConnectionStatus connected=False alive=False verified=False> with 0 callbacks>"
                   "uploadImage")),
       sample_http_server None) /\
  (ConnectionMixin.call [] MULTIPART "uploadImage" None
     (sample_http_server (Some ready_fallback))).1 = Return ok_answer /\
  resolved_call "u" [] MULTIPART "uploadImage" None sample_socket
    = (Raise (NotImplementedError HookHttpClient), sample_socket).
Proof.
  split; [reflexivity|]. split; [reflexivity|].
  destruct (base_call_delegates_or_refuses "u" [] MULTIPART "uploadImage" None
              (sample_http_server None)) as (Hres & _ & Hnone & _).
  split; [rewrite (Hres eq_refl); exact (Hnone eq_refl)|].
  destruct (base_call_delegates_or_refuses "u" [] MULTIPART "uploadImage" None
              (sample_http_server (Some ready_fallback)))
    as (_ & Hsome & _).
  split; [rewrite (Hsome ready_fallback eq_refl); reflexivity|].
  apply (base_call_delegates_or_refuses "u" [] MULTIPART "uploadImage" None
           sample_socket); [discriminate | reflexivity].
Defined.

(** C9, as the claim states it, fails: after a successful handshake the
    second callback fails on the first of two fetched events.  [mainline]
    raises that failure: the second event reaches no callback, the loop has
    stopped with [connected] still true, sleeps and an answer still to come,
    and [alive] is still true. *)
Lemma callback_failure_counterexample :
  let ended := HttpClientConnection.mainline [[]; []] flaky_fresh_client in
  (HttpClientConnection.http_auth flaky_fresh_client).1 = Return () /\
  ended.1 = Raise (OtherError 7) /\
  connected (HttpClientConnection.status ended.2) = true /\
  alive (HttpClientConnection.status ended.2) = true /\
  HttpClientConnection.delivered ended.2
    = [(0, friend_message); (1, friend_message)] /\
  HttpClientConnection.gateway ended.2 = [inr (JList [])].
Proof. repeat split. Qed.

(** A run whose handshake is refused, a run that handshakes, fetches two
    events, and is ended by another task clearing the key during the second
    sleep, and a run cut short by a failing callback. *)
Lemma mainline_run_loop_witness :
  let ticks := [[]; [args (Given JNull) None None]] in
  let failed := HttpClientConnection.mainline ticks refused_client in
  let done := HttpClientConnection.mainline ticks fresh_client in
  (HttpClientConnection.http_auth refused_client).1
    = Raise (ProtocolError 1
               (JDict [("code", JNum 1); ("msg", JStr "wrong verify key")])) /\
  failed.1 = Return () /\
  session_key (HttpClientConnection.status failed.2) = JNull /\
  length (HttpClientConnection.sent failed.2) = 1 /\
  (HttpClientConnection.http_auth fresh_client).1 = Return () /\
  done.1 = Return () /\
  alive (HttpClientConnection.status done.2) = false /\
  map HttpClientConnection.rq_url (HttpClientConnection.sent done.2)
    = ["http://gateway/verify"; "http://gateway/bind";
       "http://gateway/fetchMessage"; "http://gateway/fetchMessage"] /\
  HttpClientConnection.delivered done.2
    = [(0, JDict [("type", JStr "FriendMessage")]);
       (1, JDict [("type", JStr "FriendMessage")]);
       (0, JDict [("type", JStr "GroupMessage")]);
       (1, JDict [("type", JStr "GroupMessage")])] /\
  HttpClientConnection.mainline ticks flaky_fresh_client
    = (Raise (OtherError 7),
       (HttpClientConnection.poll ticks
          (HttpClientConnection.http_auth flaky_fresh_client).2).2).
Proof.
  intros ticks failed done.
  split; [reflexivity|].
  destruct (mainline_run_loop ticks refused_client)
    as (Hfail & _).
  destruct (Hfail _ _ eq_refl eq_refl) as (Hm & Hkey & _).
  split; [exact (f_equal fst Hm)|]. split; [exact Hkey|].
  split; [reflexivity|]. split; [reflexivity|].
  destruct (mainline_run_loop ticks fresh_client)
    as (_ & Hok & _).
  destruct (Hok _ eq_refl) as (_ & Hexit).
  split; [reflexivity|].
  split; [exact (proj1 (Hexit eq_refl))|].
  split; [reflexivity|]. split; [reflexivity|].
  destruct (mainline_run_loop ticks flaky_fresh_client)
    as (_ & _ & _ & _ & _ & _ & _ & _ & Hraise).
  exact (Hraise (OtherError 7) _ _ eq_refl eq_refl).
Defined.

End Examples.

(** * Further properties *)

(** ** ConnectionStatus *)

Section StatusMore.

Lemma truthy_is_not_None (v : json) : truthy v = true -> is_not_None v = true.
Proof. destruct v; simpl; congruence. Qed.

(** X1: [available] is sound for its three ingredients: when it is true the
    status is connected, alive and holds a session key that is not [None]
    (and not empty). *)
Theorem available_sound (st : ConnectionStatus) :
  available st = true ->
  connected st = true /\ alive st = true /\
  is_not_None (session_key st) = true /\ session_key st <> JStr "".
Proof.
  rewrite available_unfold. intros Hav.
  apply andb_true_iff in Hav as [Hca Hk].
  apply andb_true_iff in Hca as [Hc Ha].
  split; [exact Hc|]. split; [exact Ha|].
  split; [apply truthy_is_not_None, Hk|].
  intros Heq. rewrite Heq in Hk. discriminate.
Qed.

(** X2: as long as no call supplies the [connected] argument, [connected]
    keeps saying whether a session key is held: if it does so before a
    sequence of [update] calls, it does so after each of them. *)
Theorem connected_follows_key (calls : list UpdateArgs)
    (st0 : ConnectionStatus) :
  connected st0 = is_not_None (session_key st0) ->
  Forall (fun u => arg_connected u = None) calls ->
  Forall (fun st => connected st = is_not_None (session_key st))
         (update_trace calls st0).
Proof.
  intros Hinv Hcalls. revert st0 Hinv.
  induction Hcalls as [|u rest Hu _ IH]; intros st0 Hinv; simpl.
  - constructor.
  - assert (Hstep : connected (apply_update u st0)
                    = is_not_None (session_key (apply_update u st0))).
    { unfold apply_update. destruct u as [k c a]. simpl in Hu. subst c.
      destruct k, a; simpl; auto. }
    constructor; [exact Hstep | apply IH, Hstep].
Qed.

(** X3: [update] is idempotent - repeating a call with the same arguments
    changes nothing more - and a call with no argument leaves the three
    fields as they are. *)
Theorem update_idempotent (k : sentinel json) (c a : option bool)
    (st : ConnectionStatus) :
  update k c a (update k c a st) = update k c a st /\
  update Ellipsis None None st = st.
Proof. split; [|reflexivity]. destruct k, c, a, st; reflexivity. Qed.

End StatusMore.

(** ** The socket connection: frames *)

Section WebsocketMore.
Context `{Collaborators}.
Import ConnectionMixin.

(** The deliveries of one event to the callbacks of a connection. *)
Abbreviation fan_out self event :=
  (imap (fun i (_ : callback) => (i, event)) (event_callbacks self)).



(** X5: a frame that is neither an error, nor a handshake acknowledgement,
    nor the answer to a pending call, nor an event is logged as a warning and
    dropped: the handler returns normally and nothing but the log changes. *)
Theorem unknown_frame_is_logged (d : dict) (self : t) :
  let data := default JNull (dict_get "data" d) in
  frame_error d = None ->
  py_in "session" data = inr false ->
  WebsocketConnectionMixin.futures_contains
    (default (JStr "#") (dict_get "syncId" d)) (futures self) = inr false ->
  py_in "type" data = inr false ->
  WebsocketConnectionMixin.on_received (JDict d) self =
    (Return (), add_log (LogWarning data) self).
Proof.
  intros data Hok Hsession Hpending Htype.
  rewrite (on_received_valid _ _ Hok). fold data.
  unfold WebsocketConnectionMixin.handle_payload. coro_unfold.
  rewrite Hsession. simpl. rewrite Hpending. simpl. rewrite Htype.
  reflexivity.
Qed.

(** X6: a second answer to a call.  While the entry of the call is still in
    the dictionary with a future that is no longer pending - the coroutine of
    the call has not ended yet - an answer for its token makes the handler
    raise [InvalidStateError] and changes nothing.  Once the caller has
    received the first answer and its coroutine has ended, the weak
    dictionary has dropped the entry, and a second answer with the same
    token is matched to no call: with no [type] in its data it is logged as
    unknown data and dropped. *)
Theorem second_answer_to_a_call (d : dict) (token : string) (self : t) :
  let data := default JNull (dict_get "data" d) in
  frame_error d = None ->
  dict_get "syncId" d = Some (JStr token) ->
  py_in "session" data = inr false ->
  (forall f, futures self !! token = Some f -> f <> Pending ->
     WebsocketConnectionMixin.on_received (JDict d) self
       = (Raise InvalidStateError, self)) /\
  (futures self !! token = Some Pending ->
   let once := (WebsocketConnectionMixin.on_received (JDict d) self).2 in
   let gone := (WebsocketConnectionMixin.call_returns token once).2 in
   WebsocketConnectionMixin.call_returns token once = (Return data, gone) /\
   futures gone !! token = None /\
   (py_in "type" data = inr false ->
    WebsocketConnectionMixin.on_received (JDict d) gone
      = (Return (), add_log (LogWarning data) gone))).
Proof.
  intros data Hok Hsync Hsession. split.
  - intros f Hf Hnp.
    rewrite (on_received_valid _ _ Hok), Hsync. fold data. simpl.
    unfold WebsocketConnectionMixin.handle_payload. coro_unfold.
    rewrite Hsession. simpl. rewrite Hf.
    rewrite bool_decide_eq_true_2 by eauto.
    unfold WebsocketConnectionMixin.set_result. rewrite Hf.
    destruct f; [congruence | reflexivity | reflexivity].
  - intros Hpending once gone.
    assert (Honce : once = set_futures (insert token (Finished data)) self).
    { subst once.
      rewrite (on_received_valid _ _ Hok), Hsync. fold data. simpl.
      unfold WebsocketConnectionMixin.handle_payload. coro_unfold.
      rewrite Hsession. simpl. rewrite Hpending.
      rewrite bool_decide_eq_true_2 by eauto.
      unfold WebsocketConnectionMixin.set_result. rewrite Hpending.
      reflexivity. }
    assert (Hret : WebsocketConnectionMixin.call_returns token once
                   = (Return data, set_futures (delete token) once)).
    { unfold WebsocketConnectionMixin.call_returns,
        WebsocketConnectionMixin.await_future,
        WebsocketConnectionMixin.release.
      coro_unfold. rewrite Honce. simpl. rewrite lookup_insert_eq.
      reflexivity. }
    assert (Hgone : gone = set_futures (delete token) once).
    { subst gone. rewrite Hret. reflexivity. }
    assert (Hnone : futures gone !! token = None).
    { rewrite Hgone. simpl. apply lookup_delete_eq. }
    rewrite Hret. fold gone. rewrite <- Hgone.
    split; [reflexivity|]. split; [exact Hnone|].
    intros Htype.
    rewrite (on_received_valid _ _ Hok), Hsync. fold data. simpl.
    unfold WebsocketConnectionMixin.handle_payload. coro_unfold.
    rewrite Hsession. simpl. rewrite Hnone.
    rewrite bool_decide_eq_false_2 by (intros [? ?]; discriminate).
    simpl. rewrite Htype. reflexivity.
Qed.

(** X7: malformed frames raise inside the handler and change nothing: a
    decoded frame that is not a dict fails the assertion, and a dict frame
    with no [code] and no [data] raises [TypeError] at the [session] test. *)
Theorem malformed_frame_raises (self : t) :
  (forall raw, (forall d, raw <> JDict d) ->
     WebsocketConnectionMixin.on_received raw self
       = (Raise AssertionError, self)) /\
  (forall d, dict_get "code" d = None -> dict_get "data" d = None ->
     WebsocketConnectionMixin.on_received (JDict d) self
       = (Raise TypeError, self)).
Proof.
  split.
  - intros raw Hraw. destruct raw; try reflexivity.
    exfalso. eapply Hraw. reflexivity.
  - intros d Hcode Hdata.
    assert (Hok : frame_error d = None).
    { unfold frame_error. simpl. rewrite Hcode, Hdata. reflexivity. }
    rewrite (on_received_valid _ _ Hok), Hdata. reflexivity.
Qed.

Ltac solve_extension :=
  first [ by (exists []; rewrite app_nil_r) | by (eexists; reflexivity) ].

Ltac solve_wiring :=
  solve [simpl; repeat split; try reflexivity; try solve_extension].

(** X8: whatever the frame, the frame handler leaves the class, the channel,
    the fallback and the registered callbacks of the connection as they are,
    and only ever appends to the deliveries and to the log. *)
Theorem received_keeps_wiring (raw : json) (self : t) :
  let after := (WebsocketConnectionMixin.on_received raw self).2 in
  cls after = cls self /\
  ws_io after = ws_io self /\
  fallback after = fallback self /\
  event_callbacks after = event_callbacks self /\
  (exists more, delivered after = (delivered self ++ more)%list) /\
  (exists more, log after = (log self ++ more)%list).
Proof.
  destruct raw as [| | | | |d]; try solve_wiring.
  destruct (frame_error d) as [e|] eqn:He.
  { rewrite (on_received_error _ _ _ He). solve_wiring. }
  rewrite (on_received_valid _ _ He).
  unfold WebsocketConnectionMixin.handle_payload,
    WebsocketConnectionMixin.status_update.
  coro_unfold.
  destruct (py_in "session" _) as [e|[]]; try solve_wiring.
  - destruct (py_getitem _ "session"); solve_wiring.
  - destruct (WebsocketConnectionMixin.futures_contains _ (futures self))
      as [e|[]]; try solve_wiring.
    + unfold WebsocketConnectionMixin.set_result.
      destruct (default (JStr "#") (dict_get "syncId" d)) as [| | |s| |];
        try solve_wiring.
      destruct (futures self !! s) as [[]|]; solve_wiring.
    + destruct (py_in "type" _) as [e|[]]; try solve_wiring.
      destruct (build_event _) as [e|ev]; solve_wiring.
Qed.

(** X9: a frame whose data does not hold [session] never changes the session
    key or [connected]; all it can do to the status is set [alive] to true. *)
Theorem event_path_keeps_session (d : dict) (self : t) :
  py_in "session" (default JNull (dict_get "data" d)) <> inr true ->
  let after := (WebsocketConnectionMixin.on_received (JDict d) self).2 in
  session_key (status after) = session_key (status self) /\
  connected (status after) = connected (status self) /\
  (alive (status after) = alive (status self) \/ alive (status after) = true).
Proof.
  intros Hns.
  destruct (frame_error d) as [e|] eqn:He.
  { rewrite (on_received_error _ _ _ He). simpl. auto. }
  rewrite (on_received_valid _ _ He).
  unfold WebsocketConnectionMixin.handle_payload,
    WebsocketConnectionMixin.status_update.
  coro_unfold.
  destruct (py_in "session" _) as [e|[]]; try (simpl; auto; fail).
  - congruence.
  - destruct (WebsocketConnectionMixin.futures_contains _ (futures self))
      as [e|[]]; try (simpl; auto; fail).
    + unfold WebsocketConnectionMixin.set_result.
      destruct (default (JStr "#") (dict_get "syncId" d)) as [| | |s| |];
        try (simpl; auto; fail).
      destruct (futures self !! s) as [[]|]; simpl; auto.
    + destruct (py_in "type" _) as [e|[]]; try (simpl; auto; fail).
      destruct (build_event _) as [e|ev]; simpl; auto.
Qed.

End WebsocketMore.

(** ** The socket connection: calls *)

Section WebsocketCalls.
Context `{Collaborators}.
Import ConnectionMixin.

Lemma envelope_fields (sync_id : string) (method : CallMethod)
    (command : string) (params : dict) :
  method <> MULTIPART ->
  exists content,
    WebsocketConnectionMixin.envelope sync_id method command params
      = inr content /\
    dict_get "syncId" content = Some (JStr sync_id) /\
    dict_get "command" content = Some (JStr command) /\
    dict_get "content" content = Some (JDict params) /\
    dict_get "subCommand" content =
      match method with
      | RESTGET => Some (JStr "get")
      | RESTPOST => Some (JStr "update")
      | _ => None
      end.
Proof.
  intros Hm. unfold WebsocketConnectionMixin.envelope.
  destruct method; try congruence; eexists; repeat split.
Qed.

Lemma call_with_envelope (sync_id : string) (method : CallMethod)
    (command : string) (params : option dict) (content : dict) (self : t) :
  WebsocketConnectionMixin.envelope sync_id method command (or_empty params)
    = inr content ->
  WebsocketConnectionMixin.call sync_id method command params self =
    WebsocketConnectionMixin.transmit sync_id content
      (set_futures (insert sync_id Pending) self).
Proof.
  intros Henv. unfold WebsocketConnectionMixin.call. coro_unfold.
  rewrite Henv. reflexivity.
Qed.

Lemma call_goes_out (sync_id : string) (method : CallMethod)
    (command : string) (params : option dict) (content : dict)
    (frames : list dict) (self : t) :
  WebsocketConnectionMixin.envelope sync_id method command (or_empty params)
    = inr content ->
  available (status self) = true ->
  ws_io self = Some frames ->
  WebsocketConnectionMixin.call sync_id method command params self =
    (Suspend (OnFuture sync_id),
     set_ws_io (Some (frames ++ [content])%list)
       (set_futures (insert sync_id Pending) self)).
Proof.
  intros Henv Hav Hio.
  rewrite (call_with_envelope _ _ _ _ _ _ Henv).
  unfold WebsocketConnectionMixin.transmit,
    WebsocketConnectionMixin.wait_for_available,
    WebsocketConnectionMixin.send, WebsocketConnectionMixin.await_future.
  coro_unfold. simpl. rewrite Hav. simpl. rewrite Hio. simpl.
  rewrite lookup_insert_eq. reflexivity.
Qed.

(** X10: on an available connection with an open channel, a call of any kind
    but multipart registers a pending future under its token, sends exactly
    one envelope - token, command and parameters, with [subCommand] ["get"]
    for a REST read, ["update"] for a REST write and none otherwise - and
    suspends on that future. *)
Theorem call_sends_one_envelope (sync_id : string) (method : CallMethod)
    (command : string) (params : option dict) (frames : list dict)
    (self : t) :
  method <> MULTIPART ->
  available (status self) = true ->
  ws_io self = Some frames ->
  exists content,
    dict_get "syncId" content = Some (JStr sync_id) /\
    dict_get "command" content = Some (JStr command) /\
    dict_get "content" content = Some (JDict (or_empty params)) /\
    dict_get "subCommand" content =
      match method with
      | RESTGET => Some (JStr "get")
      | RESTPOST => Some (JStr "update")
      | _ => None
      end /\
    WebsocketConnectionMixin.call sync_id method command params self =
      (Suspend (OnFuture sync_id),
       set_ws_io (Some (frames ++ [content])%list)
         (set_futures (insert sync_id Pending) self)).
Proof.
  intros Hm Hav Hio.
  destruct (envelope_fields sync_id method command (or_empty params) Hm)
    as (content & Henv & Hs & Hc & Hp & Hsub).
  exists content. repeat (split; [assumption|]).
  apply call_goes_out; assumption.
Qed.

(** While the connection is not available, a call of any kind but
    multipart registers its pending future and suspends waiting for
    availability; nothing goes over the channel. *)
Theorem call_waits_for_available (sync_id : string) (method : CallMethod)
    (command : string) (params : option dict) (self : t) :
  method <> MULTIPART ->
  available (status self) = false ->
  WebsocketConnectionMixin.call sync_id method command params self =
    (Suspend OnAvailable, set_futures (insert sync_id Pending) self).
Proof.
  intros Hm Hav.
  destruct (envelope_fields sync_id method command (or_empty params) Hm)
    as (content & Henv & _).
  rewrite (call_with_envelope _ _ _ _ _ _ Henv).
  unfold WebsocketConnectionMixin.transmit,
    WebsocketConnectionMixin.wait_for_available.
  coro_unfold. simpl. rewrite Hav. reflexivity.
Qed.

(** X11: request and response correlate through the token: after a call has
    gone out, a frame that carries the call's token and a payload with no
    error code and no [session] is handled normally, and the caller's
    [await] then returns exactly that payload. *)
Theorem call_then_answer (sync_id : string) (method : CallMethod)
    (command : string) (params : option dict) (frames : list dict)
    (d : dict) (data : json) (self : t) :
  method <> MULTIPART ->
  available (status self) = true ->
  ws_io self = Some frames ->
  frame_error d = None ->
  dict_get "syncId" d = Some (JStr sync_id) ->
  dict_get "data" d = Some data ->
  py_in "session" data = inr false ->
  let called :=
    (WebsocketConnectionMixin.call sync_id method command params self).2 in
  let answered :=
    (WebsocketConnectionMixin.on_received (JDict d) called).2 in
  (WebsocketConnectionMixin.on_received (JDict d) called).1 = Return () /\
  WebsocketConnectionMixin.await_future sync_id answered
    = (Return data, answered).
Proof.
  intros Hm Hav Hio Hok Hsync Hdata Hsession called answered.
  destruct (envelope_fields sync_id method command (or_empty params) Hm)
    as (content & Henv & _).
  pose proof (call_goes_out _ _ _ _ _ _ _ Henv Hav Hio) as Hcall.
  assert (Hpending : futures called !! sync_id = Some Pending).
  { subst called. rewrite Hcall. simpl. apply lookup_insert_eq. }
  assert (Hrecv : WebsocketConnectionMixin.on_received (JDict d) called
                  = (Return (),
                     set_futures (insert sync_id (Finished data)) called)).
  { rewrite (on_received_valid _ _ Hok), Hsync, Hdata. simpl.
    unfold WebsocketConnectionMixin.handle_payload. coro_unfold.
    rewrite Hsession. simpl. rewrite Hpending.
    rewrite bool_decide_eq_true_2 by eauto.
    unfold WebsocketConnectionMixin.set_result. rewrite Hpending.
    reflexivity. }
  subst answered. rewrite Hrecv. simpl. split; [reflexivity|].
  unfold WebsocketConnectionMixin.await_future. coro_unfold. simpl.
  rewrite lookup_insert_eq. reflexivity.
Qed.

(** X12: once the close handler has run, the connection is not available,
    so every later call of any kind but multipart only registers its pending
    future and waits: it cannot reach the channel that is gone. *)
Theorem call_after_close_waits (sync_id : string) (method : CallMethod)
    (command : string) (params : option dict) (frames : list dict)
    (self : t) :
  ws_io self = Some frames ->
  method <> MULTIPART ->
  let closed := (WebsocketConnectionMixin.on_close self).2 in
  available (status closed) = false /\
  WebsocketConnectionMixin.call sync_id method command params closed =
    (Suspend OnAvailable, set_futures (insert sync_id Pending) closed).
Proof.
  intros Hio Hm closed.
  assert (Hav : available (status closed) = false).
  { subst closed. unfold WebsocketConnectionMixin.on_close,
      WebsocketConnectionMixin.status_update.
    coro_unfold. rewrite Hio. simpl.
    rewrite available_unfold. simpl. rewrite ?andb_false_r. reflexivity. }
  split; [exact Hav|]. apply call_waits_for_available; assumption.
Qed.

(** X13: the close handler needs a channel to drop: on a connection that
    holds none it raises [AttributeError] before the status update, so the
    status keeps its session key; this is what a second close event does. *)
Theorem close_without_channel_raises (self : t) :
  (ws_io self = None ->
   WebsocketConnectionMixin.on_close self
     = (Raise (AttributeError "ws_io"), self)) /\
  (forall frames, ws_io self = Some frames ->
     let closed := (WebsocketConnectionMixin.on_close self).2 in
     WebsocketConnectionMixin.on_close closed
       = (Raise (AttributeError "ws_io"), closed)).
Proof.
  assert (Hnone : forall s, ws_io s = None ->
    WebsocketConnectionMixin.on_close s = (Raise (AttributeError "ws_io"), s)).
  { intros s Hio. unfold WebsocketConnectionMixin.on_close. coro_unfold.
    rewrite Hio. reflexivity. }
  split; [apply Hnone|].
  intros frames Hio closed. apply Hnone. subst closed.
  unfold WebsocketConnectionMixin.on_close,
    WebsocketConnectionMixin.status_update.
  coro_unfold. rewrite Hio. reflexivity.
Qed.

End WebsocketCalls.

(** ** The polling connection: requests and handshake *)

Section HttpClientMore.
Context `{Collaborators}.
Import HttpClientConnection.

Lemma unpack_field_errors (x : json) (e : exn) :
  unpack_field x = inl e -> e = TypeError \/ e = ValueError.
Proof.
  unfold unpack_field, add_field.
  repeat case_match; intros [= <-]; auto.
Qed.

Lemma unpack_field_ok (x : json) (f : json * dict) :
  unpack_field x = inr f -> exists k kw, x = JList [k; JDict kw].
Proof.
  unfold unpack_field.
  repeat case_match; subst; try discriminate; intros _; eauto.
Qed.

Lemma build_form_fails (values : list json) :
  Exists (fun x => forall k kw, x <> JList [k; JDict kw]) values ->
  build_form values = inl TypeError \/ build_form values = inl ValueError.
Proof.
  induction 1 as [x rest Hx | x rest _ IH]; simpl.
  - destruct (unpack_field x) as [e|f] eqn:Hu.
    + destruct (unpack_field_errors x e Hu) as [-> | ->]; auto.
    + destruct (unpack_field_ok x f Hu) as (k & kw & ->).
      exfalso. eapply Hx. reflexivity.
  - destruct (unpack_field x) as [e|f] eqn:Hu.
    + destruct (unpack_field_errors x e Hu) as [-> | ->]; auto.
    + destruct IH as [-> | ->]; auto.
Qed.

(** X15: a request whose [data] dict has a value that is not a two-item list
    ending in a dict fails while the form is being built, with [TypeError] or
    [ValueError]: nothing is sent and no answer of the gateway is consumed. *)
Theorem malformed_form_sends_nothing (method url : string)
    (params json_ : option dict) (d : dict) (self : t) :
  Exists (fun kv : string * json =>
            forall k kw, kv.2 <> JList [k; JDict kw]) d ->
  exists e, (e = TypeError \/ e = ValueError) /\
    request method url params (Some d) json_ self = (Raise e, self).
Proof.
  intros Hbad.
  assert (Hvalues : Exists (fun x => forall k kw, x <> JList [k; JDict kw])
                      (map snd d)).
  { apply Exists_fmap. exact Hbad. }
  destruct d as [|kv d']; [inversion Hbad|].
  unfold request, prepare_data. coro_unfold.
  destruct (build_form_fails _ Hvalues) as [-> | ->];
    eexists; (split; [|reflexivity]); auto.
Qed.

(** X16: when the gateway answers the verification request with a dict that
    holds [session] and accepts the bind request, the handshake returns
    normally having sent exactly those two requests - the second binding the
    account to the received key - and having stored the key through
    [update], so that [connected] says whether the key is not [None]. *)
Theorem http_auth_stores_key (d1 : dict) (key j2 : json)
    (rest : list (exn + json)) (self : t) :
  gateway self = inr (JDict d1) :: inr j2 :: rest ->
  error_code (JDict d1) = None ->
  dict_get "session" d1 = Some key ->
  error_code j2 = None ->
  http_auth self =
    (Return (),
     {| config := config self;
        status := update (Given key) None None (status self);
        event_callbacks := event_callbacks self;
        gateway := rest;
        sent := sent self ++
                [verify_request self;
                 {| rq_method := "POST";
                    rq_url := get_url (config self) "bind";
                    rq_params := None; rq_data := None;
                    rq_json := Some [("qq", JNum (account (config self)));
                                     ("sessionKey", key)] |}];
        delivered := delivered self;
        log := log self |}).
Proof.
  intros Hg Hok1 Hkey Hok2.
  pose proof (validate_response_ok _ Hok1) as Hv1.
  pose proof (validate_response_ok _ Hok2) as Hv2.
  unfold http_auth, request, exchange, status_update, verify_request.
  coro_unfold. cbn [prepare_data]. rewrite Hg.
  cbn [tail gateway]. rewrite Hv1. cbn [py_getitem]. rewrite Hkey.
  cbn [tail gateway]. rewrite Hv2.
  unfold set_status. cbn. rewrite <- app_assoc. reflexivity.
Qed.

(** X17: the handshake stores the session key last: whenever it does not
    return normally - a request fails, is refused or is left unanswered, or
    the verification answer has no [session] - the status is exactly as it
    was.  In every case the configuration, the callbacks, the deliveries and
    the log are untouched. *)
Theorem http_auth_all_or_nothing (self : t) :
  ((http_auth self).1 <> Return () ->
   status (http_auth self).2 = status self) /\
  config (http_auth self).2 = config self /\
  event_callbacks (http_auth self).2 = event_callbacks self /\
  delivered (http_auth self).2 = delivered self /\
  log (http_auth self).2 = log self.
Proof.
  unfold http_auth, request, exchange, status_update. coro_unfold. simpl.
  destruct (gateway self) as [|[e|j] g]; simpl; try (repeat split; fail).
  destruct (validate_response j) as [e|data]; simpl;
    try (repeat split; fail).
  destruct (py_getitem data "session") as [e|key]; simpl;
    try (repeat split; fail).
  destruct g as [|[e|j'] g']; simpl; try (repeat split; fail).
  destruct (validate_response j') as [e|data']; simpl;
    repeat split; congruence.
Qed.

(** ** The polling connection: calls *)

Lemma add_field_result (k : json) (kw : dict) (f : json * dict) :
  add_field k kw = inr f -> f = (k, kw).
Proof. unfold add_field. case_match; congruence. Qed.

Lemma unpack_field_cases (x : json) :
  (exists k kw, x = JList [k; JDict kw] /\ unpack_field x = inr (k, kw)) \/
  (~ field_ok x /\
   (unpack_field x = inl TypeError \/ unpack_field x = inl ValueError)).
Proof.
  destruct (unpack_field x) as [e|f] eqn:Hu.
  - right. split.
    + intros (k & kw & -> & Hadd). simpl in Hu. congruence.
    + destruct (unpack_field_errors x e Hu) as [-> | ->]; auto.
  - left. destruct (unpack_field_ok x f Hu) as (k & kw & ->).
    simpl in Hu. pose proof (add_field_result _ _ _ Hu) as ->.
    exists k, kw. split; reflexivity.
Qed.

Lemma build_form_succeeds (values : list json) :
  Forall field_ok values ->
  exists fields,
    build_form values = inr fields /\
    Forall2 (fun x (f : json * dict) => x = JList [f.1; JDict f.2])
            values fields.
Proof.
  induction 1 as [|x rest (k & kw & -> & Hadd) _ (fields & IH & Hall)].
  - exists []. split; [reflexivity | constructor].
  - exists ((k, kw) :: fields). simpl. rewrite Hadd, IH.
    split; [reflexivity|]. constructor; [reflexivity | exact Hall].
Qed.

Lemma build_form_refuses (values : list json) :
  Exists (fun x => ~ field_ok x) values ->
  build_form values = inl TypeError \/ build_form values = inl ValueError.
Proof.
  induction 1 as [x rest Hx | x rest _ IH]; simpl.
  - destruct (unpack_field_cases x)
      as [(k & kw & -> & Hok) | [_ [-> | ->]]]; auto.
    exfalso. apply Hx. exists k, kw. split; [reflexivity|]. exact Hok.
  - destruct (unpack_field x) as [e|f] eqn:Hu.
    + destruct (unpack_field_errors x e Hu) as [-> | ->]; auto.
    + destruct IH as [-> | ->]; auto.
Qed.

(** X18: a call on a connected connection that holds a session key.  For
    the two read kinds it sends one GET with the parameters as query, for the
    two write kinds one POST with them as JSON body, to the URL of the
    command with its underscores turned into slashes; when the answer carries
    no error code the call returns it and the status is not touched.  A
    multipart call does the same with one POST whose data is the form built
    from the parameters, provided every value is a two-item list of a name
    and keywords that [add_field] accepts (an empty dict goes as it is); if
    some value is not, the call raises [TypeError] or [ValueError] and sends
    nothing. *)
Theorem call_sends_by_kind (wakeups : list UpdateArgs) (method : CallMethod)
    (command : string) (params : option dict) (j : json)
    (rest : list (exn + json)) (self : t) :
  connected (status self) = true ->
  truthy (session_key (status self)) = true ->
  (method <> MULTIPART ->
   gateway self = inr j :: rest ->
   error_code j = None ->
   call wakeups method command params self =
     (Return j,
      {| config := config self; status := status self;
         event_callbacks := event_callbacks self;
         gateway := rest;
         sent := sent self ++
           [{| rq_method :=
                 match method with GET | RESTGET => "GET" | _ => "POST" end;
               rq_url := get_url (config self) (replace_underscores command);
               rq_params := match method with
                            | GET | RESTGET => Some (or_empty params)
                            | _ => None
                            end;
               rq_data := None;
               rq_json := match method with
                          | POST | RESTPOST => Some (or_empty params)
                          | _ => None
                          end |}];
         delivered := delivered self; log := log self |})) /\
  (method = MULTIPART ->
   Forall (fun kv : string * json => field_ok kv.2) (or_empty params) ->
   gateway self = inr j :: rest ->
   error_code j = None ->
   exists body,
     (or_empty params = [] /\ body = Raw [] \/
      or_empty params <> [] /\
      exists fields,
        body = Form fields /\
        Forall2 (fun (kv : string * json) (f : json * dict) =>
                   kv.2 = JList [f.1; JDict f.2]) (or_empty params) fields) /\
     call wakeups method command params self =
       (Return j,
        {| config := config self; status := status self;
           event_callbacks := event_callbacks self;
           gateway := rest;
           sent := sent self ++
             [{| rq_method := "POST";
                 rq_url :=
                   get_url (config self) (replace_underscores command);
                 rq_params := None;
                 rq_data := Some body;
                 rq_json := None |}];
           delivered := delivered self; log := log self |})) /\
  (method = MULTIPART ->
   Exists (fun kv : string * json => ~ field_ok kv.2) (or_empty params) ->
   exists e, (e = TypeError \/ e = ValueError) /\
     call wakeups method command params self = (Raise e, self)).
Proof.
  intros Hc Hk. split; [|split].
  - intros Hm Hg Hok.
    pose proof (validate_response_ok _ Hok) as Hv.
    rewrite (call_connected _ _ _ _ _ Hc), Hk.
    unfold dispatch, request, exchange. coro_unfold.
    destruct method; try congruence; cbn [prepare_data];
      rewrite Hg, Hv; reflexivity.
  - intros -> Hall Hg Hok.
    pose proof (validate_response_ok _ Hok) as Hv.
    rewrite (call_connected _ _ _ _ _ Hc), Hk.
    unfold dispatch, request, exchange. coro_unfold.
    destruct (or_empty params) as [|kv d'] eqn:Hp.
    + exists (Raw []). split; [left; auto|].
      cbn [prepare_data]. rewrite Hg, Hv. reflexivity.
    + assert (Hvalues : Forall field_ok (map snd (kv :: d'))).
      { apply Forall_map. exact Hall. }
      destruct (build_form_succeeds _ Hvalues) as (fields & Hform & Hshape).
      exists (Form fields). split.
      * right. split; [discriminate|]. exists fields.
        split; [reflexivity|].
        apply Forall2_fmap_l in Hshape. exact Hshape.
      * unfold prepare_data. rewrite Hform. rewrite Hg, Hv. reflexivity.
  - intros -> Hbad.
    assert (Hvalues : Exists (fun x => ~ field_ok x) (map snd (or_empty params))).
    { apply Exists_fmap. exact Hbad. }
    rewrite (call_connected _ _ _ _ _ Hc), Hk.
    unfold dispatch, request. coro_unfold.
    destruct (or_empty params) as [|kv d'] eqn:Hp; [inversion Hbad|].
    unfold prepare_data.
    destruct (build_form_refuses _ Hvalues) as [-> | ->];
      eexists; (split; [|reflexivity]); auto.
Qed.

Lemma request_status (method url : string) (params data json_ : option dict)
    (self : t) :
  status (request method url params data json_ self).2 = status self.
Proof.
  unfold request, exchange. coro_unfold.
  destruct (prepare_data data) as [e|d']; simpl; [reflexivity|].
  destruct (gateway self) as [|[e|j] g]; simpl; try reflexivity.
  destruct (validate_response j); reflexivity.
Qed.

Lemma dispatch_status (method : CallMethod) (command : string) (params : dict)
    (self : t) :
  status (dispatch method command params self).2 = status self.
Proof.
  unfold dispatch. coro_unfold. destruct method; apply request_status.
Qed.

(** X19: only an invalid-session rejection clears the session key: when the
    request of a call fails with any other error, the call raises that error
    and the status is exactly as it was. *)
Theorem other_errors_keep_session (wakeups : list UpdateArgs)
    (method : CallMethod) (command : string) (params : option dict)
    (e : exn) (self self' : t) :
  connected (status self) = true ->
  truthy (session_key (status self)) = true ->
  dispatch method (replace_underscores command) (or_empty params) self
    = (Raise e, self') ->
  is_InvalidSession e = false ->
  call wakeups method command params self = (Raise e, self') /\
  status self' = status self.
Proof.
  intros Hc Hk Hd He. split.
  - rewrite (call_connected _ _ _ _ _ Hc), Hk.
    unfold bind at 1. unfold ret at 1. unfold try_except.
    rewrite Hd, He. reflexivity.
  - pose proof (dispatch_status method (replace_underscores command)
                  (or_empty params) self) as Hs.
    rewrite Hd in Hs. exact Hs.
Qed.

Lemma contains_underscore_cons (c : ascii) (s : string) :
  str_contains "_" (String c s) = Ascii.eqb c "_" || str_contains "_" s.
Proof.
  change (str_contains "_" (String c s))
    with (String.prefix "_" (String c s) || str_contains "_" s).
  f_equal. cbn [String.prefix].
  destruct (ascii_dec "_" c) as [<-|Hne].
  - destruct s; reflexivity.
  - symmetry. apply Ascii.eqb_neq. congruence.
Qed.

(** X20: turning the underscores of a command into slashes keeps its length,
    leaves no underscore behind, and is idempotent. *)
Theorem replace_underscores_facts (s : string) :
  String.length (replace_underscores s) = String.length s /\
  str_contains "_" (replace_underscores s) = false /\
  replace_underscores (replace_underscores s) = replace_underscores s.
Proof.
  induction s as [|c s (IHlen & IHno & IHid)]; [repeat split|].
  cbn [replace_underscores String.length]. split; [congruence|]. split.
  - rewrite contains_underscore_cons, IHno, orb_false_r.
    destruct (Ascii.eqb c "_") eqn:Hc; [reflexivity | exact Hc].
  - rewrite IHid. f_equal.
    destruct (Ascii.eqb c "_") eqn:Hc; [reflexivity|]. rewrite Hc. reflexivity.
Qed.

(** X21: the gate of a call: when [wait_connected] lets the call through,
    [connected] is true; when it leaves the call suspended, it is suspended on
    the next status update, [connected] is false and every wake-up has been
    taken and logged; in both cases only the status and the log have changed. *)
Theorem wait_connected_gate (wakeups : list UpdateArgs) (self : t) :
  let after := wait_connected wakeups self in
  (after.1 = Return () /\ connected (status after.2) = true \/
   after.1 = Suspend OnUpdate /\ connected (status after.2) = false /\
   status after.2 = run_updates wakeups (status self) /\
   log after.2
     = (log self ++ replicate (length wakeups) (LogDebug "Got update"))%list) /\
  config after.2 = config self /\
  gateway after.2 = gateway self /\
  sent after.2 = sent self /\
  delivered after.2 = delivered self.
Proof.
  revert self. induction wakeups as [|u rest IH]; intros self; simpl.
  - destruct (connected (status self)) eqn:Hc; simpl.
    + split; [left; auto | auto].
    + split; [right; rewrite app_nil_r; auto | auto].
  - destruct (connected (status self)) eqn:Hc; simpl.
    + split; [left; auto | auto].
    + specialize (IH (add_log (LogDebug "Got update")
                        (set_status (apply_update u) self))).
      simpl in IH. destruct IH as (Hcases & Hrest). split; [|exact Hrest].
      destruct Hcases as [Hl | (H1 & H2 & H3 & H4)]; [left; exact Hl|].
      right. repeat split; try assumption.
      rewrite H4, <- app_assoc. reflexivity.
Qed.

End HttpClientMore.

(** ** The polling connection: the loop body *)

Section HttpClientLoop.
Context `{Collaborators}.
Import HttpClientConnection.

Lemma first_raised_none_iff (results : list (option exn)) :
  first_raised results = None <-> Forall (fun r => r = None) results.
Proof.
  split; [|apply first_raised_none].
  induction results as [|[e|] rest IH]; simpl; intros Hf.
  - constructor.
  - discriminate.
  - constructor; [reflexivity | apply IH, Hf].
Qed.

Lemma first_raised_some (results : list (option exn)) (e : exn) :
  first_raised results = Some e -> Some e ∈ results.
Proof.
  induction results as [|[e'|] rest IH]; simpl; intros Hf.
  - discriminate.
  - injection Hf as ->. apply list_elem_of_here.
  - apply list_elem_of_further, IH, Hf.
Qed.

(** The fan-out of one event starts every registered callback, whether
    or not some of them fail: the deliveries are the same in both cases.  It
    completes normally exactly when no callback raises, and what it raises
    otherwise is what one of the callbacks raised on that event. *)
Theorem gather_starts_every_callback (event : Event) (self : t) :
  (gather event self).2 =
    add_delivered (imap (fun i _ => (i, event)) (event_callbacks self)) self /\
  ((gather event self).1 = Return () <->
   Forall (fun cb : callback => cb event = None) (event_callbacks self)) /\
  (forall e, (gather event self).1 = Raise e ->
     exists cb : callback, cb ∈ event_callbacks self /\ cb event = Some e).
Proof.
  unfold gather, invoke_all. simpl.
  destruct (first_raised _) as [e|] eqn:Hf; simpl.
  - split; [reflexivity|]. split.
    + split; [intros Hx; discriminate Hx|]. intros Hall.
      rewrite first_raised_none in Hf; [discriminate Hf|].
      apply Forall_map, Hall.
    + intros e' [= <-]. apply first_raised_some in Hf.
      apply list_elem_of_fmap in Hf as (cb & Hcb & Hin).
      exists cb. split; [exact Hin | congruence].
  - split; [reflexivity|]. split.
    + split; [|reflexivity]. intros _.
      apply first_raised_none_iff in Hf.
      apply Forall_map in Hf. exact Hf.
    + intros e' Hx. discriminate Hx.
Qed.

(** X23: a batch is handed out item by item and stops at the first item that
    does not decode: the events before it have been delivered to every
    callback, the items after it are never looked at, and the decoding error
    is raised. *)
Theorem dispatch_all_stops_at_undecodable (good : list json)
    (events : list Event) (bad : json) (e : exn) (rest : list json)
    (self : t) :
  Forall2 (fun item event => build_event item = inr event) good events ->
  Forall (fun event =>
            Forall (fun cb : callback => cb event = None)
                   (event_callbacks self)) events ->
  build_event bad = inl e ->
  dispatch_all (good ++ bad :: rest) self =
    (Raise e,
     add_delivered
       (flat_map (fun event => imap (fun i _ => (i, event))
                                 (event_callbacks self)) events) self).
Proof.
  intros Hbuild. revert self.
  induction Hbuild as [|item event items events' Hitem _ IH];
    intros self Hcb Hbad.
  - simpl. unfold bind, lift. rewrite Hbad.
    rewrite add_delivered_nil. reflexivity.
  - inversion Hcb as [|? ? Hev Hrest]; subst.
    simpl. unfold bind at 1. unfold lift at 1. rewrite Hitem.
    unfold ret at 1. unfold bind at 1. rewrite (gather_delivers _ _ Hev).
    rewrite IH by assumption. simpl.
    rewrite add_delivered_app. reflexivity.
Qed.

Lemma dispatch_all_status (items : list json) (self : t) :
  status (dispatch_all items self).2 = status self.
Proof.
  revert self. induction items as [|item rest IH]; intros self;
    [reflexivity|].
  simpl. unfold bind at 1. unfold lift.
  destruct (build_event item) as [e|event]; [reflexivity|].
  unfold ret at 1. unfold bind at 1.
  pose proof (proj1 (gather_starts_every_callback event self)) as Hg.
  destruct (gather event self) as [[[]|e|p] s1]; simpl in *; subst s1;
    try reflexivity.
  rewrite IH. reflexivity.
Qed.

Lemma poll_once_status (self : t) :
  session_key (status (poll_once self).2) = session_key (status self) /\
  connected (status (poll_once self).2) = connected (status self) /\
  (alive (status (poll_once self).2) = alive (status self) \/
   alive (status (poll_once self).2) = true).
Proof.
  unfold poll_once, status_update. coro_unfold.
  pose proof (request_status "GET" (get_url (config self) "fetchMessage")
                (Some [("sessionKey", session_key (status self));
                       ("count", JNum 10)]) None None self) as Hr.
  destruct (request _ _ _ _ _ self) as [[data|e|p] s1]; simpl in Hr |- *;
    try (rewrite Hr; auto; fail).
  destruct data as [|b|n|s|items|d]; simpl; rewrite ?Hr; auto.
  pose proof (dispatch_all_status items
                (set_status (update Ellipsis None (Some true)) s1)) as Hd.
  destruct (dispatch_all items _) as [[[]|e|p] s2]; simpl in *;
    rewrite Hd, Hr; auto.
Qed.

(** X22: what a pass of the loop raises - the fetch being refused, even as
    an invalid session, an answer that is not a list, an item that does not
    decode, a failing callback - leaves [mainline] as it is: the session key
    is not cleared, [connected] stays as it was and [alive] is not reset. *)
Theorem loop_errors_escape_mainline (others : list UpdateArgs)
    (ticks : list (list UpdateArgs)) (e : exn) (self s1 s2 : t) :
  http_auth self = (Return (), s1) ->
  connected (status s1) = true ->
  poll_once (set_status (run_updates others) s1) = (Raise e, s2) ->
  mainline (others :: ticks) self = (Raise e, s2) /\
  session_key (status s2) = session_key (run_updates others (status s1)) /\
  connected (status s2) = connected (run_updates others (status s1)) /\
  (alive (status s2) = alive (run_updates others (status s1)) \/
   alive (status s2) = true).
Proof.
  intros Hauth Hc Hpoll. split.
  - unfold mainline. rewrite Hauth. unfold bind at 1.
    rewrite (poll_step _ _ _ Hc). unfold bind, modify.
    rewrite Hpoll. reflexivity.
  - pose proof (poll_once_status (set_status (run_updates others) s1)) as Hs.
    rewrite Hpoll in Hs. exact Hs.
Qed.

End HttpClientLoop.

(** ** Inbound connections *)

Section InboundFacts.
Context `{Collaborators}.
Import ConnectionMixin.

Lemma all_match_satisfies (required given : list (string * string)) :
  all_match required given = true <-> satisfies required given.
Proof.
  unfold satisfies. induction required as [|[k v] rest IH]; simpl.
  - split; [constructor | reflexivity].
  - destruct (bool_decide (str_get k given = Some v)) eqn:Hd.
    + apply bool_decide_eq_true_1 in Hd. rewrite IH. split.
      * intros Hrest. constructor; assumption.
      * intros Hall. inversion Hall; assumption.
    + apply bool_decide_eq_false_1 in Hd. split; [discriminate|].
      intros Hall. inversion Hall; subst. contradiction.
Qed.

(** X24: the inbound socket accepts a connection attempt exactly when the
    request carries every required header and every required query parameter
    with its expected value.  On acceptance the connection retains the
    channel, over which it has sent the one handshake request with the
    verification secret and the account; on any mismatch it asks for the
    channel to be closed, sends nothing and is unchanged. *)
Theorem server_accepts_matching_requests
    (cfg : WebsocketServer.config) (req : InboundRequest) (self : t) :
  (satisfies (WebsocketServer.headers cfg) (rq_headers req) /\
   satisfies (WebsocketServer.params cfg) (rq_query_params req) ->
   WebsocketServer.on_connect cfg req self =
     (Return WebsocketServer.WSConnectionAccept,
      set_ws_io (Some [WebsocketServer.verify_frame cfg]) self)) /\
  (~ (satisfies (WebsocketServer.headers cfg) (rq_headers req) /\
      satisfies (WebsocketServer.params cfg) (rq_query_params req)) ->
   WebsocketServer.on_connect cfg req self =
     (Return WebsocketServer.WSConnectionClose, self)).
Proof.
  unfold WebsocketServer.on_connect.
  destruct (all_match (WebsocketServer.headers cfg) (rq_headers req)) eqn:Hh;
    destruct (all_match (WebsocketServer.params cfg) (rq_query_params req))
      eqn:Hp; simpl; split; try reflexivity.
  - intros Hno. exfalso. apply Hno.
    split; apply all_match_satisfies; assumption.
  - intros [_ Hsat]. apply all_match_satisfies in Hsat. congruence.
  - intros [Hsat _]. apply all_match_satisfies in Hsat. congruence.
  - intros [Hsat _]. apply all_match_satisfies in Hsat. congruence.
Qed.

(** X25: the inbound-HTTP connection rejects a request without touching
    anything: a request whose [qq] header is missing or is not the decimal
    text of the configured account gets no response at all, and one that
    passes that test but fails a required header gets the 401 response; in
    both cases the connection is unchanged and no event is delivered. *)
Theorem handle_request_rejects (cfg : HttpServer.config)
    (req : InboundRequest) (body : exn + json) (self : t) :
  (str_get "qq" (rq_headers req) <> Some (py_str_int (HttpServer.account cfg)) ->
   HttpServer.handle_request cfg req body self
     = (Return HttpServer.NoResponse, self)) /\
  (str_get "qq" (rq_headers req) = Some (py_str_int (HttpServer.account cfg)) ->
   ~ satisfies (HttpServer.headers cfg) (rq_headers req) ->
   HttpServer.handle_request cfg req body self
     = (Return HttpServer.Unauthorized, self)).
Proof.
  unfold HttpServer.handle_request. split.
  - intros Hqq. rewrite bool_decide_eq_false_2 by exact Hqq. reflexivity.
  - intros Hqq Hno. rewrite bool_decide_eq_true_2 by exact Hqq. simpl.
    destruct (all_match (HttpServer.headers cfg) (rq_headers req)) eqn:Hh;
      [|reflexivity].
    exfalso. apply Hno, all_match_satisfies, Hh.
Qed.


(** X27: the inbound-HTTP handler never stores a session key - nothing it
    does changes the key, the pending-call dictionary or the channel - so a
    connection that holds no key is not [available] after any request,
    accepted or not. *)
Theorem handle_request_never_available (cfg : HttpServer.config)
    (req : InboundRequest) (body : exn + json) (self : t) :
  let after := (HttpServer.handle_request cfg req body self).2 in
  session_key (status after) = session_key (status self) /\
  futures after = futures self /\
  ws_io after = ws_io self /\
  (session_key (status self) = JNull -> available (status after) = false).
Proof.
  assert (Hkey : session_key
                   (status (HttpServer.handle_request cfg req body self).2)
                 = session_key (status self) /\
                 futures (HttpServer.handle_request cfg req body self).2
                 = futures self /\
                 ws_io (HttpServer.handle_request cfg req body self).2
                 = ws_io self).
  { unfold HttpServer.handle_request.
    destruct (negb (bool_decide _)); [repeat split|].
    destruct (negb (all_match _ _)); [repeat split|].
    unfold HttpServer.status_update, HttpServer.gather, invoke_all.
    coro_unfold.
    destruct body as [e|data]; [repeat split|].
    destruct data; simpl; try (repeat split; fail).
    destruct (build_event _) as [e|ev]; simpl; [repeat split|].
    destruct (first_raised _); repeat split. }
  destruct Hkey as (Hk & Hf & Hio). simpl.
  split; [exact Hk|]. split; [exact Hf|]. split; [exact Hio|].
  intros Hnull. rewrite available_unfold, Hk, Hnull. simpl.
  apply andb_false_r.
Qed.

(** X14: the handshake acknowledgement alone does not make a socket
    connection available: it stores the key and sets [connected], but [alive]
    is only set by event frames.  A call made after the acknowledgement and
    before the first event therefore registers its future and waits; with the
    first event the status becomes available, unless the key is empty. *)
Theorem acknowledged_socket_waits_for_event (d dd : dict) (S : string)
    (sync_id : string) (method : CallMethod) (command : string)
    (params : option dict) (self : t) :
  frame_error d = None ->
  dict_get "data" d = Some (JDict dd) ->
  dict_get "session" dd = Some (JStr S) ->
  alive (status self) = false ->
  method <> MULTIPART ->
  let acked :=
    (WebsocketConnectionMixin.on_received (JDict d) self).2 in
  available (status acked) = false /\
  WebsocketConnectionMixin.call sync_id method command params acked =
    (Suspend OnAvailable, set_futures (insert sync_id Pending) acked) /\
  available (update Ellipsis None (Some true) (status acked))
    = negb (String.eqb S "").
Proof.
  intros Hok Hdata Hsession Halive Hm acked.
  assert (Hacked : status acked
                   = update (Given (JStr S)) None None (status self)).
  { subst acked. rewrite (on_received_valid _ _ Hok), Hdata. simpl.
    unfold WebsocketConnectionMixin.handle_payload,
      WebsocketConnectionMixin.status_update.
    coro_unfold. simpl. rewrite Hsession. reflexivity. }
  assert (Hav : available (status acked) = false).
  { rewrite Hacked, available_unfold. simpl. rewrite Halive. reflexivity. }
  split; [exact Hav|]. split.
  - apply call_waits_for_available; assumption.
  - rewrite Hacked, available_unfold. reflexivity.
Qed.

End InboundFacts.

(** ** Worked examples for the further properties *)

Section MoreExamples.
#[local] Existing Instance sample_collaborators.
Import ConnectionMixin.

(** The status after a handshake and a fetch is available. *)
Lemma available_sound_witness :
  available status_K1 = true /\
  connected status_K1 = true /\ is_not_None (session_key status_K1) = true.
Proof.
  split; [reflexivity|].
  destruct (available_sound status_K1 eq_refl) as (Hc & _ & Hk & _).
  split; assumption.
Defined.

(** A handshake, an event and a closure, none of which supplies [connected]. *)
Lemma connected_follows_key_witness :
  let calls := [args (Given (JStr "K")) None None;
                args Ellipsis None (Some true);
                args (Given JNull) None (Some false)] in
  connected ConnectionStatus_init
    = is_not_None (session_key ConnectionStatus_init) /\
  Forall (fun u => arg_connected u = None) calls /\
  Forall (fun st => connected st = is_not_None (session_key st))
         (update_trace calls ConnectionStatus_init).
Proof.
  intros calls.
  assert (Hcalls : Forall (fun u => arg_connected u = None) calls)
    by (repeat constructor).
  split; [reflexivity|]. split; [exact Hcalls|].
  exact (connected_follows_key calls ConnectionStatus_init eq_refl Hcalls).
Defined.


(** A payload with neither [session] nor [type] for a token nobody waits on. *)
Lemma unknown_frame_is_logged_witness :
  frame_error unknown_frame = None /\
  WebsocketConnectionMixin.on_received (JDict unknown_frame) sample_socket =
    (Return (),
     add_log (LogWarning (JDict [("foo", JNum 1)])) sample_socket).
Proof.
  split; [reflexivity|].
  apply (unknown_frame_is_logged unknown_frame sample_socket); reflexivity.
Defined.

(** The answer for token ["t"], delivered again after the caller is gone. *)
Lemma second_answer_to_a_call_witness :
  let once :=
    (WebsocketConnectionMixin.on_received (JDict answer_frame)
       sample_socket).2 in
  let gone := (WebsocketConnectionMixin.call_returns "t" once).2 in
  futures sample_socket !! "t" = Some Pending /\
  WebsocketConnectionMixin.call_returns "t" once
    = (Return (JDict [("messageId", JNum 42)]), gone) /\
  futures gone !! "t" = None /\
  WebsocketConnectionMixin.on_received (JDict answer_frame) gone
    = (Return (), add_log (LogWarning (JDict [("messageId", JNum 42)])) gone).
Proof.
  intros once gone. split; [reflexivity|].
  destruct (proj2 (second_answer_to_a_call answer_frame "t" sample_socket
                     eq_refl eq_refl eq_refl) eq_refl)
    as (Hret & Hnone & Hlog).
  split; [exact Hret|]. split; [exact Hnone|]. exact (Hlog eq_refl).
Defined.

(** A frame that is a bare string, and a frame that only holds a token. *)
Lemma malformed_frame_raises_witness :
  WebsocketConnectionMixin.on_received (JStr "ping") sample_socket
    = (Raise AssertionError, sample_socket) /\
  WebsocketConnectionMixin.on_received (JDict [("syncId", JStr "t")])
    sample_socket = (Raise TypeError, sample_socket).
Proof.
  destruct (malformed_frame_raises sample_socket) as (Hraw & Hdict).
  split.
  - apply Hraw. intros d. discriminate.
  - apply Hdict; reflexivity.
Defined.

(** The answer for token ["t"] leaves the session of the sample socket. *)
Lemma event_path_keeps_session_witness :
  py_in "session" (default JNull (dict_get "data" answer_frame)) <> inr true /\
  session_key
    (status (WebsocketConnectionMixin.on_received (JDict answer_frame)
               sample_socket).2) = JStr "S".
Proof.
  assert (Hns : py_in "session" (default JNull (dict_get "data" answer_frame))
                <> inr true) by discriminate.
  split; [exact Hns|].
  exact (proj1 (event_path_keeps_session answer_frame sample_socket Hns)).
Defined.

(** A REST read on the sample socket. *)
Lemma call_sends_one_envelope_witness :
  RESTGET <> MULTIPART /\
  available (status sample_socket) = true /\
  exists content,
    dict_get "subCommand" content = Some (JStr "get") /\
    WebsocketConnectionMixin.call "u" RESTGET "groupConfig" None sample_socket
      = (Suspend (OnFuture "u"),
         set_ws_io (Some [content])
           (set_futures (insert "u" Pending) sample_socket)).
Proof.
  assert (Hm : RESTGET <> MULTIPART) by discriminate.
  split; [exact Hm|]. split; [reflexivity|].
  destruct (call_sends_one_envelope "u" RESTGET "groupConfig" None []
              sample_socket Hm eq_refl eq_refl)
    as (content & _ & _ & _ & Hsub & Hcall).
  exists content. split; [exact Hsub | exact Hcall].
Defined.

(** A call on a socket that has no session yet. *)
Lemma call_waits_for_available_witness :
  GET <> MULTIPART /\
  available (status opened_socket) = false /\
  WebsocketConnectionMixin.call "u" GET "about" None opened_socket
    = (Suspend OnAvailable, set_futures (insert "u" Pending) opened_socket).
Proof.
  assert (Hm : GET <> MULTIPART) by discriminate.
  split; [exact Hm|]. split; [reflexivity|].
  exact (call_waits_for_available "u" GET "about" None opened_socket
           Hm eq_refl).
Defined.

(** A call under token ["u"] and its answer. *)
Lemma call_then_answer_witness :
  let called :=
    (WebsocketConnectionMixin.call "u" POST "sendFriendMessage" None
       sample_socket).2 in
  let answered :=
    (WebsocketConnectionMixin.on_received (JDict answer_frame_u) called).2 in
  frame_error answer_frame_u = None /\
  WebsocketConnectionMixin.await_future "u" answered
    = (Return (JDict [("messageId", JNum 7)]), answered).
Proof.
  intros called answered. split; [reflexivity|].
  assert (Hm : POST <> MULTIPART) by discriminate.
  exact (proj2 (call_then_answer "u" POST "sendFriendMessage" None []
                  answer_frame_u (JDict [("messageId", JNum 7)]) sample_socket
                  Hm eq_refl eq_refl eq_refl eq_refl eq_refl eq_refl)).
Defined.

(** The sample socket, closed, then called. *)
Lemma call_after_close_waits_witness :
  let closed := (WebsocketConnectionMixin.on_close sample_socket).2 in
  ws_io sample_socket = Some [] /\
  WebsocketConnectionMixin.call "u" GET "about" None closed
    = (Suspend OnAvailable, set_futures (insert "u" Pending) closed).
Proof.
  intros closed. split; [reflexivity|].
  assert (Hm : GET <> MULTIPART) by discriminate.
  exact (proj2 (call_after_close_waits "u" GET "about" None [] sample_socket
                  eq_refl Hm)).
Defined.

(** The sample socket, closed twice. *)
Lemma close_without_channel_raises_witness :
  let closed := (WebsocketConnectionMixin.on_close sample_socket).2 in
  ws_io sample_socket = Some [] /\
  WebsocketConnectionMixin.on_close closed
    = (Raise (AttributeError "ws_io"), closed).
Proof.
  intros closed. split; [reflexivity|].
  exact (proj2 (close_without_channel_raises sample_socket) [] eq_refl).
Defined.

(** A handshake acknowledgement on a freshly opened socket. *)
Lemma acknowledged_socket_waits_for_event_witness :
  let acked :=
    (WebsocketConnectionMixin.on_received (JDict session_frame)
       opened_socket).2 in
  alive (status opened_socket) = false /\
  connected (status acked) = true /\
  available (status acked) = false /\
  WebsocketConnectionMixin.call "u" GET "about" None acked
    = (Suspend OnAvailable, set_futures (insert "u" Pending) acked).
Proof.
  intros acked. split; [reflexivity|]. split; [reflexivity|].
  assert (Hm : GET <> MULTIPART) by discriminate.
  destruct (acknowledged_socket_waits_for_event session_frame
              [("code", JNum 0); ("session", JStr "S2")] "S2" "u" GET "about"
              None opened_socket eq_refl eq_refl eq_refl eq_refl Hm)
    as (Hav & Hcall & _).
  split; [exact Hav | exact Hcall].
Defined.

(** A multipart call whose one field is a bare string. *)
Lemma malformed_form_sends_nothing_witness :
  exists e, (e = TypeError \/ e = ValueError) /\
    HttpClientConnection.request "POST" "http://gateway/uploadImage" None
      (Some [("img", JStr "bytes")]) None ready_fallback
    = (Raise e, ready_fallback).
Proof.
  apply (malformed_form_sends_nothing "POST" "http://gateway/uploadImage" None
           None [("img", JStr "bytes")] ready_fallback).
  apply Exists_cons_hd. intros k kw. discriminate.
Defined.

(** The handshake of the fresh connection. *)
Lemma http_auth_stores_key_witness :
  error_code (verify_answer "K1") = None /\
  (HttpClientConnection.http_auth fresh_client).1 = Return () /\
  session_key
    (HttpClientConnection.status
       (HttpClientConnection.http_auth fresh_client).2) = JStr "K1" /\
  connected
    (HttpClientConnection.status
       (HttpClientConnection.http_auth fresh_client).2) = true /\
  map HttpClientConnection.rq_url
    (HttpClientConnection.sent (HttpClientConnection.http_auth fresh_client).2)
    = ["http://gateway/verify"; "http://gateway/bind"].
Proof.
  split; [reflexivity|].
  rewrite (http_auth_stores_key
             [("code", JNum 0); ("session", JStr "K1")] (JStr "K1") ok_answer _
             fresh_client eq_refl eq_refl eq_refl eq_refl).
  repeat split.
Defined.

(** The handshake of the connection whose verification key is refused. *)
Lemma http_auth_all_or_nothing_witness :
  (HttpClientConnection.http_auth refused_client).1 <> Return () /\
  HttpClientConnection.status (HttpClientConnection.http_auth refused_client).2
    = ConnectionStatus_init.
Proof.
  assert (Hfail : (HttpClientConnection.http_auth refused_client).1
                  <> Return ()) by discriminate.
  split; [exact Hfail|].
  exact (proj1 (http_auth_all_or_nothing refused_client) Hfail).
Defined.

(** A write call for a command spelt with an underscore, an upload whose
    one field names its value and file, and an upload whose field gives no
    value. *)
Lemma call_sends_by_kind_witness :
  let written :=
    HttpClientConnection.call [] POST "file_rename"
      (Some [("id", JStr "f1")]) ready_fallback in
  let image :=
    [("img", JList [JStr "img";
                    JDict [("value", JStr "png-data");
                           ("filename", JStr "a.png")]])] in
  let uploaded :=
    HttpClientConnection.call [] MULTIPART "uploadImage" (Some image)
      ready_fallback in
  written.1 = Return ok_answer /\
  map (fun rq => (HttpClientConnection.rq_method rq,
                  HttpClientConnection.rq_url rq,
                  HttpClientConnection.rq_json rq))
      (HttpClientConnection.sent written.2)
    = [("POST", "http://gateway/file/rename", Some [("id", JStr "f1")])] /\
  uploaded.1 = Return ok_answer /\
  map HttpClientConnection.rq_data (HttpClientConnection.sent uploaded.2)
    = [Some (HttpClientConnection.Form
               [(JStr "img", [("value", JStr "png-data");
                              ("filename", JStr "a.png")])])] /\
  exists e, (e = TypeError \/ e = ValueError) /\
    HttpClientConnection.call [] MULTIPART "uploadImage"
      (Some [("f", JList [JStr "img"; JDict []])]) ready_fallback
    = (Raise e, ready_fallback).
Proof.
  intros written image uploaded.
  destruct (call_sends_by_kind [] POST "file_rename"
              (Some [("id", JStr "f1")]) ok_answer [] ready_fallback
              eq_refl eq_refl) as (Hplain & _).
  assert (Hpost : POST <> MULTIPART) by discriminate.
  subst written. rewrite (Hplain Hpost eq_refl eq_refl).
  split; [reflexivity|]. split; [reflexivity|].
  split; [reflexivity|]. split; [reflexivity|].
  destruct (call_sends_by_kind [] MULTIPART "uploadImage"
              (Some [("f", JList [JStr "img"; JDict []])]) ok_answer []
              ready_fallback eq_refl eq_refl) as (_ & _ & Hbad).
  apply (Hbad eq_refl). apply Exists_cons_hd.
  intros (k & kw & Heq & Hadd). injection Heq as <- <-. discriminate Hadd.
Defined.

(** A call the gateway refuses with code 5. *)
Lemma other_errors_keep_session_witness :
  let refusal := JDict [("code", JNum 5); ("msg", JStr "target not found")] in
  is_InvalidSession (ProtocolError 5 refusal) = false /\
  (HttpClientConnection.call [] GET "friendList" None refused_call_client).1
    = Raise (ProtocolError 5 refusal) /\
  HttpClientConnection.status
    (HttpClientConnection.call [] GET "friendList" None refused_call_client).2
    = status_K1.
Proof.
  intros refusal. split; [reflexivity|].
  destruct (other_errors_keep_session [] GET "friendList" None
              (ProtocolError 5 refusal) refused_call_client _
              eq_refl eq_refl eq_refl eq_refl) as (Hcall & Hstatus).
  rewrite Hcall. split; [reflexivity | exact Hstatus].
Defined.

(** A run whose first fetch is rejected as an invalid session. *)
Lemma loop_errors_escape_mainline_witness :
  let ended := HttpClientConnection.mainline [[]] expiring_client in
  (HttpClientConnection.http_auth expiring_client).1 = Return () /\
  ended.1 = Raise (ProtocolError 3 invalid_session_answer) /\
  session_key (HttpClientConnection.status ended.2) = JStr "K1" /\
  connected (HttpClientConnection.status ended.2) = true.
Proof.
  intros ended. split; [reflexivity|].
  destruct (loop_errors_escape_mainline [] []
              (ProtocolError 3 invalid_session_answer) expiring_client _ _
              eq_refl eq_refl eq_refl) as (Hm & Hk & Hc & _).
  subst ended. rewrite Hm. simpl in *.
  split; [reflexivity|]. split; [exact Hk | exact Hc].
Defined.

(** Either callback of the flaky connection is started on an event, though
    the second one fails. *)
Lemma gather_starts_every_callback_witness :
  let event : @Event typed_collaborators :=
    JDict [("type", JStr "GroupMessage")] in
  (@HttpClientConnection.gather typed_collaborators event flaky_client).1
    = Raise (OtherError 7) /\
  HttpClientConnection.delivered
    (@HttpClientConnection.gather typed_collaborators event flaky_client).2
    = [(0, event); (1, event)].
Proof.
  intros event. split; [reflexivity|].
  rewrite (proj1 (@gather_starts_every_callback typed_collaborators event
                    flaky_client)).
  reflexivity.
Defined.

(** A batch of three items, the second of which has no [type]. *)
Lemma dispatch_all_stops_at_undecodable_witness :
  let first : @Event typed_collaborators :=
    JDict [("type", JStr "FriendMessage")] in
  @build_event typed_collaborators (JDict [("foo", JNum 1)])
    = inl ValueError /\
  @HttpClientConnection.dispatch_all typed_collaborators
    [JDict [("type", JStr "FriendMessage")]; JDict [("foo", JNum 1)];
     JDict [("type", JStr "GroupMessage")]] steady_client
  = (Raise ValueError,
     HttpClientConnection.add_delivered [(0, first)] steady_client).
Proof.
  intros first. split; [reflexivity|].
  apply (@dispatch_all_stops_at_undecodable typed_collaborators
           [JDict [("type", JStr "FriendMessage")]] [first]
           (JDict [("foo", JNum 1)]) ValueError
           [JDict [("type", JStr "GroupMessage")]] steady_client).
  - repeat constructor.
  - repeat constructor.
  - reflexivity.
Defined.

(** An attempt with the right header and parameter, and one with a wrong
    parameter. *)
Lemma server_accepts_matching_requests_witness :
  WebsocketServer.on_connect socket_server_config good_request opened_socket
    = (Return WebsocketServer.WSConnectionAccept,
       set_ws_io (Some [WebsocketServer.verify_frame socket_server_config])
         opened_socket) /\
  WebsocketServer.on_connect socket_server_config wrong_param_request
    opened_socket = (Return WebsocketServer.WSConnectionClose, opened_socket).
Proof.
  split.
  - apply (server_accepts_matching_requests socket_server_config good_request
             opened_socket).
    split; repeat constructor.
  - apply (server_accepts_matching_requests socket_server_config
             wrong_param_request opened_socket).
    intros [_ Hp]. inversion Hp as [|? ? Hkv _]. discriminate Hkv.
Defined.

(** A push for another account, and a push without the required header. *)
Lemma handle_request_rejects_witness :
  py_str_int (HttpServer.account http_server_config) = "10001" /\
  HttpServer.handle_request http_server_config other_account_request
    (inr event_frame_body) (sample_http_server None)
    = (Return HttpServer.NoResponse, sample_http_server None) /\
  HttpServer.handle_request http_server_config no_token_request
    (inr event_frame_body) (sample_http_server None)
    = (Return HttpServer.Unauthorized, sample_http_server None).
Proof.
  split; [reflexivity|].
  destruct (handle_request_rejects http_server_config other_account_request
              (inr event_frame_body) (sample_http_server None)) as (Hqq & _).
  destruct (handle_request_rejects http_server_config no_token_request
              (inr event_frame_body) (sample_http_server None)) as (_ & Hhd).
  split.
  - apply Hqq. discriminate.
  - apply Hhd; [reflexivity|].
    intros Hsat. inversion Hsat as [|? ? Hkv _]. discriminate Hkv.
Defined.


(** The same push: no session key before, none after. *)
Lemma handle_request_never_available_witness :
  session_key (status (sample_http_server None)) = JNull /\
  available
    (status (HttpServer.handle_request http_server_config good_request
               (inr event_frame_body) (sample_http_server None)).2) = false.
Proof.
  split; [reflexivity|].
  exact (proj2 (proj2 (proj2
           (handle_request_never_available http_server_config good_request
              (inr event_frame_body) (sample_http_server None)))) eq_refl).
Defined.

End MoreExamples.
